(** * SmartWireguardConfig: the config patcher of [main.py], embedded in Rocq

    The development follows [src/main.py] function by function:
    - Python [str] values are [string]s, and the development is about
      ASCII text: the characters are the 7-bit ASCII code points, on which
      [strip], [upper], [isdigit] and [int] are as in Python. Beyond ASCII
      Python knows further whitespace (U+0085, U+00A0, ...), letters with
      an upper case and digits; such characters are outside the model,
      where a code above 127 is carried through unchanged and is neither
      whitespace, nor a digit, nor a letter;
    - a Python [set] of strings is a [gset string];
    - a list of lines is a [list string], and [list.insert] is written out
      with [take] and [drop];
    - a file is the text it holds; reading it goes through universal
      newlines and [readlines], and a run that follows another reads the
      text the first one wrote;
    - [sys.exit(1)] is the [Exit1] outcome of a small error monad;
    - the DNS resolver is a parameter of the section that uses it. *)

From Stdlib Require Import Ascii ZArith Lia.
From Stdlib Require String.
From stdpp Require Import base list gmap strings sorting.

Local Open Scope Z_scope.
Local Open Scope nat_scope.

(** ** Python string primitives *)

Module Py.

(** [str.isspace] on one ASCII character: TAB, LF, VT, FF, CR, the four
    separators FS, GS, RS, US and the blank. *)
Definition isspace (c : ascii) : bool :=
  match c with
  | "009" | "010" | "011" | "012" | "013"
  | "028" | "029" | "030" | "031" | " " => true
  | _ => false
  end%char.

Fixpoint lstrip (s : string) : string :=
  match s with
  | EmptyString => EmptyString
  | String c s' => if isspace c then lstrip s' else s
  end.

Fixpoint rstrip (s : string) : string :=
  match s with
  | EmptyString => EmptyString
  | String c s' =>
      match rstrip s' with
      | EmptyString => if isspace c then EmptyString else String c EmptyString
      | r => String c r
      end
  end.

(** [s.strip()] *)
Definition strip (s : string) : string := rstrip (lstrip s).

(** [s.startswith(p)] *)
Definition startswith (s p : string) : bool := String.prefix p s.

(** [s.split(sep)] for a one-character separator. *)
Fixpoint split (sep : ascii) (s : string) : list string :=
  match s with
  | EmptyString => [EmptyString]
  | String c s' =>
      if Ascii.eqb c sep then EmptyString :: split sep s'
      else match split sep s' with
           | p :: ps => String c p :: ps
           | [] => [String c EmptyString]
           end
  end.

(** [sep.join(l)] *)
Definition join (sep : string) (l : list string) : string :=
  String.concat sep l.

Definition upper_char (c : ascii) : ascii :=
  let n := nat_of_ascii c in
  if (97 <=? n) && (n <=? 122) then ascii_of_nat (n - 32) else c.

(** [s.upper()] *)
Fixpoint upper (s : string) : string :=
  match s with
  | EmptyString => EmptyString
  | String c s' => String (upper_char c) (upper s')
  end.

Definition digit_of (c : ascii) : option Z :=
  let n := nat_of_ascii c in
  if (48 <=? n) && (n <=? 57) then Some (Z.of_nat (n - 48)) else None.

Fixpoint all_digits (s : string) : bool :=
  match s with
  | EmptyString => true
  | String c s' => bool_decide (is_Some (digit_of c)) && all_digits s'
  end.

(** [s.isdigit()]: at least one character, and all of them digits. *)
Definition isdigit (s : string) : bool :=
  match s with
  | EmptyString => false
  | _ => all_digits s
  end.

(** The digits of an integer literal once its first digit is read: more
    digits, each of which a single underscore may precede. *)
Fixpoint int_digits (acc : Z) (s : string) : option Z :=
  match s with
  | EmptyString => Some acc
  | String c s' =>
      match digit_of c with
      | Some d => int_digits (10 * acc + d) s'
      | None =>
          if Ascii.eqb c "_" then
            match s' with
            | String c' s'' =>
                match digit_of c' with
                | Some d => int_digits (10 * acc + d) s''
                | None => None
                end
            | EmptyString => None
            end
          else None
      end
  end.

(** The whitespace [int] skips around a literal: blank, TAB, LF, VT, FF and
    CR. The separators FS, GS, RS and US, which [str.strip] removes, are
    not among them. *)
Definition int_isspace (c : ascii) : bool :=
  match c with
  | "009" | "010" | "011" | "012" | "013" | " " => true
  | _ => false
  end%char.

Fixpoint int_lstrip (s : string) : string :=
  match s with
  | EmptyString => EmptyString
  | String c s' => if int_isspace c then int_lstrip s' else s
  end.

Fixpoint int_rstrip (s : string) : string :=
  match s with
  | EmptyString => EmptyString
  | String c s' =>
      match int_rstrip s' with
      | EmptyString =>
          if int_isspace c then EmptyString else String c EmptyString
      | r => String c r
      end
  end.

(** The number of digits of a literal; underscores do not count. *)
Fixpoint count_digits (s : string) : Z :=
  match s with
  | EmptyString => 0
  | String c s' =>
      (match digit_of c with Some _ => 1 | None => 0 end + count_digits s')%Z
  end.

(** [sys.int_max_str_digits], at its default. *)
Definition max_str_digits : Z := 4300.

Definition int_unsigned (s : string) : option Z :=
  match s with
  | String c s' =>
      match digit_of c with
      | Some d =>
          if (max_str_digits <? count_digits s)%Z then None
          else int_digits d s'
      | None => None
      end
  | EmptyString => None
  end.

(** [int(s)] in base ten; [None] is [ValueError].  Whitespace around the
    literal is skipped, one sign is allowed, digits may be grouped with
    single underscores, and a literal of more than [max_str_digits] digits
    is refused. *)
Definition int (s : string) : option Z :=
  match int_rstrip (int_lstrip s) with
  | String "+" s' => int_unsigned s'
  | String "-" s' => Z.opp <$> int_unsigned s'
  | s' => int_unsigned s'
  end.

(** What reading a text file decodes its content to, with universal
    newlines: CR LF and a lone CR become LF. *)
Fixpoint universal_newlines (s : string) : string :=
  match s with
  | EmptyString => EmptyString
  | String c s' =>
      if Ascii.eqb c "013" then
        String "010"
          match s' with
          | String c' s'' =>
              if Ascii.eqb c' "010" then universal_newlines s''
              else universal_newlines s'
          | EmptyString => EmptyString
          end
      else String c (universal_newlines s')
  end.

(** [f.readlines()] on the decoded text: a line ends after each LF and
    keeps it; what follows the last LF, if anything, is the last line. *)
Fixpoint readlines (s : string) : list string :=
  match s with
  | EmptyString => []
  | String c s' =>
      if Ascii.eqb c "010" then String c EmptyString :: readlines s'
      else match readlines s' with
           | [] => [String c EmptyString]
           | line :: lines => String c line :: lines
           end
  end.

(** [s[1:]] *)
Definition from1 (s : string) : string :=
  match s with
  | EmptyString => EmptyString
  | String _ s' => s'
  end.

(** [l.insert(i, x)] for [0 <= i]: past the end it appends. *)
Definition insert {A} (i : nat) (x : A) (l : list A) : list A :=
  take i l ++ x :: drop i l.

(** [sorted(s)] for a set of strings: ascending in the order of [str],
    which compares code point by code point. *)
Definition sorted (s : gset string) : list string :=
  merge_sort String.le (elements s).

End Py.

(** The line terminator that [readlines] keeps at the end of a line. *)
Definition LF : string := String "010"%char EmptyString.

(** ** Outcomes: a value, or [sys.exit(1)] *)

Inductive outcome (A : Type) : Type :=
| Exit1
| Done (a : A).
Arguments Exit1 {A}.
Arguments Done {A} a.

#[global] Instance outcome_ret : MRet outcome := fun A a => Done a.

#[global] Instance outcome_bind : MBind outcome := fun A B k m =>
  match m with
  | Exit1 => Exit1
  | Done a => k a
  end.

(** ** The config patcher, [update_config] *)

(** [line.strip().startswith('AllowedIPs =')] *)
Definition is_allowed_ips (line : string) : bool :=
  Py.startswith (Py.strip line) "AllowedIPs =".

(** [line.strip() == '[Peer]'] *)
Definition is_peer (line : string) : bool :=
  bool_decide (Py.strip line = "[Peer]").

(** [line.strip().startswith('[')] *)
Definition is_section (line : string) : bool :=
  Py.startswith (Py.strip line) "[".

(** [f'AllowedIPs = {ip_str}\n'] with [ip_str = ', '.join(sorted(allowed_ips))] *)
Definition allowed_ips_line (allowed_ips : gset string) : string :=
  let ip_str := Py.join ", " (Py.sorted allowed_ips) in
  "AllowedIPs = " +:+ ip_str +:+ LF.

(** The loops [for i, line in enumerate(l): if p(line): index = i; break],
    counting from [i]; [None] when the loop ends without a hit. *)
Fixpoint find_from (p : string -> bool) (i : nat) (l : list string) : option nat :=
  match l with
  | [] => None
  | line :: l' => if p line then Some i else find_from p (S i) l'
  end.

(** One round of the overwrite loop on the pair
    [(allowed_ips_index, output_lines)]. *)
Definition overwrite_step (st : option nat * list string) (line : string)
  : option nat * list string :=
  let '(allowed_ips_index, output_lines) := st in
  if is_allowed_ips line then
    match allowed_ips_index with
    | None => (Some (length output_lines), output_lines)
    | Some _ => (allowed_ips_index, output_lines)
    end
  else (allowed_ips_index, output_lines ++ [line]).

Definition overwrite_scan (lines : list string) : option nat * list string :=
  fold_left overwrite_step lines (None, []).

(** Lines 111-173: from the lines read to the lines written. *)
Definition update_config_lines (lines : list string) (allowed_ips : gset string)
    (overwrite : bool) : outcome (list string) :=
  if overwrite then
    let '(allowed_ips_index, output_lines) := overwrite_scan lines in
    match allowed_ips_index with
    | Some k => Done (Py.insert k (allowed_ips_line allowed_ips) output_lines)
    | None =>
        match find_from is_peer 0 output_lines with
        | Some peer_index =>
            Done (Py.insert (peer_index + 1) (allowed_ips_line allowed_ips)
                    output_lines)
        | None => Exit1
        end
    end
  else
    let output_lines := lines in
    match find_from is_peer 0 output_lines with
    | Some peer_index =>
        let next_section_index :=
          default (length output_lines)
            (find_from is_section (peer_index + 1)
               (drop (peer_index + 1) output_lines)) in
        Done (Py.insert next_section_index (allowed_ips_line allowed_ips)
                output_lines)
    | None => Exit1
    end.

(** [update_config] up to the text handed to the output sink: the template
    is [None] when it cannot be read. *)
Definition update_config (template : option (list string))
    (allowed_ips : gset string) (overwrite : bool) : outcome string :=
  match template with
  | None => Exit1
  | Some lines =>
      output_lines ← update_config_lines lines allowed_ips overwrite;
      mret (Py.join "" output_lines)
  end.

(** ** The IP-class normaliser, [normalize_ip_class] *)

Definition CLASS_TO_CIDR : gmap string string :=
  <["A" := "/8"]> (<["B" := "/16"]> (<["C" := "/24"]> (<["HOST" := "/32"]> ∅))).

Definition normalize_ip_class (ip_class : string) : outcome string :=
  let ip_class := Py.upper ip_class in
  cidr ← (if Py.startswith ip_class "/" then Done ip_class
          else if Py.isdigit ip_class then Done ("/" +:+ ip_class)
          else match CLASS_TO_CIDR !! ip_class with
               | Some c => Done c
               | None => Exit1
               end);
  match Py.int (Py.from1 cidr) with
  | Some cidr_number =>
      if ((0 <=? cidr_number) && (cidr_number <=? 32))%Z then Done cidr
      else Exit1
  | None => Exit1
  end.

(** ** The input reader, [read_domains_from_file] *)

(** One round of the loop over the lines of the file. *)
Definition read_step (domains : list string) (line : string) : list string :=
  let stripped_line := Py.strip line in
  if negb (bool_decide (stripped_line = ""))
     && negb (Py.startswith stripped_line "#")
     && negb (Py.startswith stripped_line "//")
  then domains ++ [stripped_line]
  else domains.

(** The file is [None] when opening or reading it raises. *)
Definition read_domains_from_file (file : option (list string))
  : outcome (list string) :=
  match file with
  | None => Exit1
  | Some lines => Done (fold_left read_step lines [])
  end.

(** ** The resolver stage, [resolve_domains], and [main] *)

(** What a call of [resolve_domains] leaves behind: the names it asked the
    resolver about, in order, and the set it returns. *)
Record resolution : Type := Resolution {
  queried : list string;
  resolved_ips : gset string
}.

(** What is on disk when [main] runs: the lines of the template ([None]
    when it cannot be read), and, when [os.path.isfile(args.domains)]
    holds, what reading that file gives. *)
Record disk : Type := Disk {
  template_lines : option (list string);
  domains_file : option (option (list string))
}.

Section Resolver.

(** [dns.resolver.resolve(domain, 'A')]: the answers as they print, or
    [None] when the call raises. *)
Variable dns_resolve : string -> option (list string).

(** [urlparse(s).netloc] *)
Variable netloc : string -> string.

(** [extract_domain]; nothing in [main.py] calls it. *)
Definition extract_domain (url_or_domain : string) : string :=
  let parsed_netloc := netloc url_or_domain in
  if bool_decide (parsed_netloc = "") then url_or_domain else parsed_netloc.

(** [parts[0].strip()] *)
Definition entry_domain (domain_with_cidr : string) : string :=
  let parts := Py.split "," domain_with_cidr in
  Py.strip (default "" (parts !! 0)).

(** [parts[1].strip() if len(parts) > 1 else default_ip_class] *)
Definition entry_ip_class (default_ip_class domain_with_cidr : string) : string :=
  let parts := Py.split "," domain_with_cidr in
  if bool_decide (1 < length parts) then Py.strip (default "" (parts !! 1))
  else default_ip_class.

(** One round of the loop over [domains_with_cidr]. *)
Definition resolve_step (default_ip_class : string) (st : resolution)
    (domain_with_cidr : string) : resolution :=
  let domain := entry_domain domain_with_cidr in
  let ip_class := entry_ip_class default_ip_class domain_with_cidr in
  match dns_resolve domain with
  | Some answers =>
      Resolution (queried st ++ [domain])
        (fold_left (fun ips answer => ips ∪ {[ answer +:+ ip_class ]})
           answers (resolved_ips st))
  | None => Resolution (queried st ++ [domain]) (resolved_ips st)
  end.

Definition resolve_domains (domains_with_cidr : list string)
    (default_ip_class : string) : resolution :=
  fold_left (resolve_step default_ip_class) domains_with_cidr
    (Resolution [] ∅).

(** [main] up to the text handed to the output sink, together with the
    names the resolver was asked about. *)
Definition main (d : disk) (domains ip_class : string) (overwrite : bool)
  : outcome (list string * string) :=
  default_ip_class ← normalize_ip_class ip_class;
  domains_with_cidr ← match domains_file d with
                       | Some file => read_domains_from_file file
                       | None => Done [domains]
                       end;
  let r := resolve_domains domains_with_cidr default_ip_class in
  if bool_decide (resolved_ips r = ∅) then Exit1
  else
    updated_content ← update_config (template_lines d) (resolved_ips r) overwrite;
    mret (queried r, updated_content).

End Resolver.

(** ** Vocabulary of the statements *)

(** [none p l]: no line of [l] satisfies [p]. *)
Abbreviation none p l := (Forall (fun line => p line = false) l).

(** The lines the overwrite loop copies. *)
Abbreviation kept l := (filter (fun line => is_allowed_ips line = false) l).

(** The AllowedIPs lines of a sequence. *)
Abbreviation allowed_ips_lines l :=
  (filter (fun line => is_allowed_ips line = true) l).

(** What [f.readlines()] gives for a template file that holds
    [content]. *)
Definition file_lines (content : string) : list string :=
  Py.readlines (Py.universal_newlines content).

(** One run of [update_config] on a template file that holds [content]:
    the text written to the output file, which a later run reads back as
    its template. *)
Definition update_config_file (content : string) (allowed_ips : gset string)
    (overwrite : bool) : outcome string :=
  update_config (Some (file_lines content)) allowed_ips overwrite.

(** Append mode run once for each set of [sets], the file written by one
    run being the template of the next. *)
Fixpoint append_runs (content : string) (sets : list (gset string))
  : outcome string :=
  match sets with
  | [] => Done content
  | allowed_ips :: sets' =>
      text ← update_config_file content allowed_ips false;
      append_runs text sets'
  end.

(** [s] has no line break: neither LF nor CR. *)
Fixpoint no_breaks (s : string) : bool :=
  match s with
  | EmptyString => true
  | String c s' =>
      negb (Ascii.eqb c "010") && negb (Ascii.eqb c "013") && no_breaks s'
  end.

(** [s] has no CR. *)
Fixpoint no_cr (s : string) : bool :=
  match s with
  | EmptyString => true
  | String c s' => negb (Ascii.eqb c "013") && no_cr s'
  end.

(** [s] is a terminated line: characters other than line breaks, then one
    LF. *)
Fixpoint is_line (s : string) : bool :=
  match s with
  | EmptyString => false
  | String c s' =>
      if Ascii.eqb c "010" then bool_decide (s' = EmptyString)
      else negb (Ascii.eqb c "013") && is_line s'
  end.

(** [s] can be the last line of a file: terminated, or not empty and
    without line break. *)
Definition is_last_line (s : string) : bool :=
  is_line s || (negb (bool_decide (s = EmptyString)) && no_breaks s).

(** [l] is what reading a file gives: terminated lines, of which the last
    may lack its LF. *)
Fixpoint wf_lines (l : list string) : bool :=
  match l with
  | [] => true
  | x :: l' =>
      match l' with
      | [] => is_last_line x
      | _ :: _ => is_line x && wf_lines l'
      end
  end.

(** No string of the set has a line break. *)
Abbreviation line_free ips := (forall x : string, x ∈ ips -> no_breaks x = true).

(** The set after adding the strings of [adds] one by one, as the loops of
    [resolve_domains] do. *)
Definition accumulate (adds : list string) : gset string :=
  fold_left (fun ips formatted => ips ∪ {[ formatted ]}) adds ∅.

(** [s] has no comma. *)
Fixpoint comma_free (s : string) : bool :=
  match s with
  | EmptyString => true
  | String c s' => negb (Ascii.eqb c ",") && comma_free s'
  end.

(** [s] is made of whitespace only. *)
Fixpoint all_space (s : string) : bool :=
  match s with
  | EmptyString => true
  | String c s' => Py.isspace c && all_space s'
  end.

(** The number that the decimal digits of [s] write, after [acc]. *)
Fixpoint decimal_from (acc : Z) (s : string) : Z :=
  match s with
  | EmptyString => acc
  | String c s' => decimal_from (10 * acc + default 0%Z (Py.digit_of c)) s'
  end.

Definition decimal_value (s : string) : Z := decimal_from 0 s.

(** What [normalize_ip_class] checks before it returns [c]: no lower-case
    letter, a slash in front, and after it what [int] reads as a number
    from 0 to 32. *)
Definition accepted (c : string) : Prop :=
  Py.upper c = c
  /\ Py.startswith c "/" = true
  /\ exists n, Py.int (Py.from1 c) = Some n /\ (0 <= n <= 32)%Z.

(** A line of the domain file that is neither blank nor a comment. *)
Definition is_entry (line : string) : bool :=
  negb (bool_decide (Py.strip line = ""))
  && negb (Py.startswith (Py.strip line) "#")
  && negb (Py.startswith (Py.strip line) "//").

(** [s] is empty or starts with a character that is not whitespace. *)
Definition head_kept (s : string) : Prop :=
  match s with
  | EmptyString => True
  | String c _ => Py.isspace c = false
  end.

(** The entries [main] hands to [resolve_domains]: the lines read from the
    domain file when [args.domains] names a file, the argument itself
    otherwise. *)
Definition main_entries (d : disk) (domains : string) : outcome (list string) :=
  match domains_file d with
  | Some file => read_domains_from_file file
  | None => Done [domains]
  end.

(** What one entry adds to the set: the answers for its domain, each with
    the entry's suffix. *)
Definition adds_of (dns_resolve : string -> option (list string))
    (dflt e : string) : list string :=
  (fun answer => answer +:+ entry_ip_class dflt e)
    <$> default [] (dns_resolve (entry_domain e)).

(** The template of the scenarios. *)
Definition template1 : list string :=
  [ "[Interface]" +:+ LF; "Address = 10.0.0.1" +:+ LF;
    "[Peer]" +:+ LF; "PublicKey = X" +:+ LF ].

(** A resolver that knows one name. *)
Definition dns1 (domain : string) : option (list string) :=
  if bool_decide (domain = "example.com") then Some ["93.184.216.34"; "93.184.216.34"]
  else None.

(** ** Running the definitions *)

Example strip_ex : Py.strip ("  [Peer] " +:+ LF) = "[Peer]".
Proof. reflexivity. Qed.

Example split_ex : Py.split "," "a,b,,c" = ["a"; "b"; ""; "c"].
Proof. reflexivity. Qed.

Example int_ex :
  Py.int " +1_0 " = Some 10%Z /\ Py.int "1__0" = None /\ Py.int "" = None.
Proof. vm_compute. auto. Qed.

Example int_separators_ex :
  Py.int (String "028" "8") = None
  /\ Py.int (String "011" "8") = Some 8%Z
  /\ normalize_ip_class (String "/" (String "028" "8")) = Exit1.
Proof. vm_compute. repeat split. Qed.

Example file_lines_ex :
  file_lines (String "a" (String "013" (String "010" (String "b" (String "013" "c")))))
  = [ "a" +:+ LF; "b" +:+ LF; "c" ]
  /\ file_lines "" = [].
Proof. vm_compute. repeat split. Qed.

Example scenario_append :
  update_config_lines template1 {[ "1.2.3.4/32"; "1.2.3.4/32" ]} false
  = Done (template1 ++ [ "AllowedIPs = 1.2.3.4/32" +:+ LF ]).
Proof. vm_compute. reflexivity. Qed.

Example scenario_overwrite :
  update_config_lines
    [ "[Interface]" +:+ LF; "Address = 10.0.0.1" +:+ LF; "[Peer]" +:+ LF;
      "AllowedIPs = 9.9.9.9/32" +:+ LF; "PublicKey = X" +:+ LF ]
    {[ "1.1.1.1/32" ]} true
  = Done [ "[Interface]" +:+ LF; "Address = 10.0.0.1" +:+ LF; "[Peer]" +:+ LF;
           "AllowedIPs = 1.1.1.1/32" +:+ LF; "PublicKey = X" +:+ LF ].
Proof. vm_compute. reflexivity. Qed.

Example normalize_ex :
  normalize_ip_class "host" = Done "/32" /\
  normalize_ip_class "c" = Done "/24" /\
  normalize_ip_class "24" = Done "/24" /\
  normalize_ip_class "/0" = Done "/0" /\
  normalize_ip_class "33" = Exit1 /\
  normalize_ip_class "/" = Exit1 /\
  normalize_ip_class "D" = Exit1.
Proof. vm_compute. repeat split. Qed.

Example main_ex :
  main dns1 (Disk (Some template1) None) "example.com,/24,junk" "32" false
  = Done (["example.com"],
          Py.join "" (template1 ++ ["AllowedIPs = 93.184.216.34/24" +:+ LF])).
Proof. vm_compute. reflexivity. Qed.

(** ** Facts about the string primitives *)

Lemma append_cons (c : ascii) (s t : string) :
  String c s +:+ t = String c (s +:+ t).
Proof. reflexivity. Qed.

Lemma append_empty_l (t : string) : "" +:+ t = t.
Proof. reflexivity. Qed.

(** A non-blank character stops [rstrip]: everything before it is kept. *)
Lemma rstrip_keeps_before (p : string) (c : ascii) (s : string) :
  Py.isspace c = false ->
  Py.rstrip (p +:+ String c s) = p +:+ String c (Py.rstrip s).
Proof.
  intros Hc. induction p as [|a p IH].
  - rewrite !append_empty_l. simpl. rewrite Hc. by destruct (Py.rstrip s).
  - rewrite !append_cons. simpl. rewrite IH.
    destruct p; by rewrite ?append_empty_l, ?append_cons.
Qed.

Lemma startswith_append (p s : string) : Py.startswith (p +:+ s) p = true.
Proof.
  unfold Py.startswith. induction p as [|a p IH].
  - by destruct s.
  - rewrite append_cons. simpl. by destruct (ascii_dec a a).
Qed.

Lemma strip_allowed_ips_line (allowed_ips : gset string) :
  exists rest, Py.strip (allowed_ips_line allowed_ips) = "AllowedIPs =" +:+ rest.
Proof.
  unfold allowed_ips_line, Py.strip.
  change ("AllowedIPs = " +:+ ?x)
    with ("AllowedIPs " +:+ String "="%char (" " +:+ x)).
  set (tl := " " +:+ _).
  change (Py.lstrip ("AllowedIPs " +:+ String "="%char tl))
    with ("AllowedIPs " +:+ String "="%char tl).
  rewrite rstrip_keeps_before by reflexivity.
  by exists (Py.rstrip tl).
Qed.

Lemma allowed_ips_line_is_allowed_ips (allowed_ips : gset string) :
  is_allowed_ips (allowed_ips_line allowed_ips) = true.
Proof.
  unfold is_allowed_ips. destruct (strip_allowed_ips_line allowed_ips) as [r ->].
  apply startswith_append.
Qed.

Lemma allowed_ips_line_not_section (allowed_ips : gset string) :
  is_section (allowed_ips_line allowed_ips) = false.
Proof.
  unfold is_section. destruct (strip_allowed_ips_line allowed_ips) as [r ->].
  reflexivity.
Qed.

Lemma allowed_ips_line_not_peer (allowed_ips : gset string) :
  is_peer (allowed_ips_line allowed_ips) = false.
Proof.
  unfold is_peer. destruct (strip_allowed_ips_line allowed_ips) as [r ->].
  by apply bool_decide_eq_false.
Qed.

Lemma peer_not_allowed_ips (line : string) :
  is_peer line = true -> is_allowed_ips line = false.
Proof.
  unfold is_peer, is_allowed_ips. intros ->%bool_decide_eq_true. reflexivity.
Qed.

(** ** Facts about the loops of the patcher *)

Lemma find_from_none (p : string -> bool) (i : nat) (l : list string) :
  none p l -> find_from p i l = None.
Proof.
  intros H. revert i. induction H as [|x l Hx _ IH]; intros i; simpl; [done|].
  by rewrite Hx.
Qed.

Lemma find_from_hit (p : string -> bool) (i : nat) (pre : list string)
    (x : string) (post : list string) :
  none p pre -> p x = true ->
  find_from p i (pre ++ x :: post) = Some (i + length pre).
Proof.
  intros H Hx. revert i. induction H as [|y pre Hy _ IH]; intros i; simpl.
  - rewrite Hx. f_equal. lia.
  - rewrite Hy, IH. f_equal. lia.
Qed.

(** Either no line satisfies [p], or there is a first one. *)
Lemma first_split (p : string -> bool) (l : list string) :
  none p l \/
  exists pre x post, l = pre ++ x :: post /\ none p pre /\ p x = true.
Proof.
  induction l as [|y l IH].
  - left. constructor.
  - destruct (p y) eqn:Hy.
    + right. exists [], y, l. repeat split; [constructor | done].
    + destruct IH as [IH | (pre & x & post & -> & Hpre & Hx)].
      * left. by constructor.
      * right. exists (y :: pre), x, post. repeat split; [by constructor | done].
Qed.

Lemma find_from_None_iff (p : string -> bool) (i : nat) (l : list string) :
  find_from p i l = None <-> none p l.
Proof.
  split; [|apply find_from_none].
  destruct (first_split p l) as [H | (pre & x & post & -> & Hpre & Hx)]; [done|].
  by rewrite find_from_hit.
Qed.

Lemma scan_copies (l : list string) (idx : option nat) (out : list string) :
  none is_allowed_ips l ->
  fold_left overwrite_step l (idx, out) = (idx, out ++ l).
Proof.
  intros H. revert out. induction H as [|x l Hx _ IH]; intros out; simpl.
  - by rewrite app_nil_r.
  - rewrite Hx, IH, <- app_assoc. done.
Qed.

Lemma scan_after_first (l : list string) (k : nat) (out : list string) :
  fold_left overwrite_step l (Some k, out) = (Some k, out ++ kept l).
Proof.
  revert out. induction l as [|x l IH]; intros out; simpl.
  - by rewrite app_nil_r.
  - destruct (is_allowed_ips x) eqn:Hx.
    + rewrite IH, filter_cons_False; [done | congruence].
    + rewrite IH, filter_cons_True, <- app_assoc; done.
Qed.

Lemma overwrite_scan_none (lines : list string) :
  none is_allowed_ips lines -> overwrite_scan lines = (None, lines).
Proof. intros H. unfold overwrite_scan. by rewrite scan_copies. Qed.

Lemma overwrite_scan_hit (pre : list string) (a : string) (post : list string) :
  none is_allowed_ips pre -> is_allowed_ips a = true ->
  overwrite_scan (pre ++ a :: post) = (Some (length pre), pre ++ kept post).
Proof.
  intros Hpre Ha. unfold overwrite_scan.
  rewrite fold_left_app, scan_copies by done. simpl.
  rewrite Ha. apply scan_after_first.
Qed.

Lemma kept_none (l : list string) : none is_allowed_ips l -> kept l = l.
Proof.
  induction 1 as [|x l Hx _ IH]; [done|].
  by rewrite filter_cons_True, IH.
Qed.

Lemma kept_split (pre : list string) (a : string) (post : list string) :
  none is_allowed_ips pre -> is_allowed_ips a = true ->
  kept (pre ++ a :: post) = pre ++ kept post.
Proof.
  intros Hpre Ha.
  rewrite filter_app, kept_none, filter_cons_False; [done | congruence | done].
Qed.

Lemma none_kept (l : list string) : none is_allowed_ips (kept l).
Proof.
  apply Forall_forall. intros x Hx. by apply list_elem_of_filter in Hx as [? _].
Qed.

Lemma insert_at_length {A} (pre : list A) (x : A) (post : list A) :
  Py.insert (length pre) x (pre ++ post) = pre ++ x :: post.
Proof.
  unfold Py.insert. by rewrite take_app_length, drop_app_length.
Qed.

(** ** The patcher in overwrite mode *)

(** C1. In overwrite mode the output is the template without its AllowedIPs
    lines, all other lines unchanged and in order, plus the one new line:
    - when the template has an AllowedIPs line, [pre] being the lines
      before the first one, the new line is inserted at position
      [length pre] of the filtered sequence, that is right after [pre],
      the lines already copied when the first AllowedIPs line was skipped;
    - when it has none but has a [Peer] line, the new line comes
      immediately after the first [Peer] line.
    This holds for every set of formatted IPs. *)
Theorem overwrite_output (lines : list string) (allowed_ips : gset string) :
  (forall pre a post,
      lines = pre ++ a :: post ->
      none is_allowed_ips pre -> is_allowed_ips a = true ->
      update_config_lines lines allowed_ips true
      = Done (Py.insert (length pre) (allowed_ips_line allowed_ips) (kept lines))
      /\ Py.insert (length pre) (allowed_ips_line allowed_ips) (kept lines)
         = pre ++ allowed_ips_line allowed_ips :: kept post)
  /\ (forall pre p post,
      none is_allowed_ips lines ->
      lines = pre ++ p :: post ->
      none is_peer pre -> is_peer p = true ->
      kept lines = lines
      /\ update_config_lines lines allowed_ips true
         = Done (pre ++ p :: allowed_ips_line allowed_ips :: post)).
Proof.
  split.
  - intros pre a post -> Hpre Ha.
    unfold update_config_lines.
    rewrite overwrite_scan_hit, kept_split by done.
    by rewrite insert_at_length.
  - intros pre p post Hnone -> Hpre Hp.
    split; [by apply kept_none|].
    unfold update_config_lines.
    rewrite overwrite_scan_none by done.
    rewrite find_from_hit by done. simpl.
    replace (length pre + 1) with (length (pre ++ [p]))
      by (rewrite length_app; simpl; lia).
    rewrite (cons_middle p pre post), app_assoc, insert_at_length.
    by rewrite <- app_assoc.
Qed.

Lemma overwrite_output_witness :
  update_config_lines
    [ "[Peer]" +:+ LF; "AllowedIPs = 9.9.9.9/32" +:+ LF; "PublicKey = X" +:+ LF;
      "  AllowedIPs = 8.8.8.8/32" +:+ LF ]
    {[ "1.1.1.1/32" ]} true
  = Done [ "[Peer]" +:+ LF; "AllowedIPs = 1.1.1.1/32" +:+ LF;
           "PublicKey = X" +:+ LF ]
  /\ update_config_lines template1 {[ "1.1.1.1/32" ]} true
     = Done [ "[Interface]" +:+ LF; "Address = 10.0.0.1" +:+ LF;
              "[Peer]" +:+ LF; "AllowedIPs = 1.1.1.1/32" +:+ LF;
              "PublicKey = X" +:+ LF ].
Proof.
  split.
  - destruct (overwrite_output
                [ "[Peer]" +:+ LF; "AllowedIPs = 9.9.9.9/32" +:+ LF;
                  "PublicKey = X" +:+ LF; "  AllowedIPs = 8.8.8.8/32" +:+ LF ]
                {[ "1.1.1.1/32" ]}) as [H _].
    destruct (H [ "[Peer]" +:+ LF ] ("AllowedIPs = 9.9.9.9/32" +:+ LF)
                [ "PublicKey = X" +:+ LF; "  AllowedIPs = 8.8.8.8/32" +:+ LF ])
      as [H1 H2]; [reflexivity | by repeat constructor | reflexivity |].
    rewrite H1, H2. vm_compute. reflexivity.
  - destruct (overwrite_output template1 {[ "1.1.1.1/32" ]}) as [_ H].
    destruct (H [ "[Interface]" +:+ LF; "Address = 10.0.0.1" +:+ LF ]
                ("[Peer]" +:+ LF) [ "PublicKey = X" +:+ LF ])
      as [_ H2]; [by repeat constructor | reflexivity | by repeat constructor
                 | reflexivity |].
    rewrite H2. vm_compute. reflexivity.
Defined.

(** ** The patcher in append mode *)

Lemma drop_past_first {A} (pre : list A) (p : A) (tl : list A) :
  drop (length pre + 1) (pre ++ p :: tl) = tl.
Proof.
  rewrite (cons_middle p pre tl), app_assoc.
  replace (length pre + 1) with (length (pre ++ [p]))
    by (rewrite length_app; simpl; lia).
  apply drop_app_length.
Qed.

(** The insertion boundary of append mode, for a template cut at its first
    [Peer] line [p] into the section body [body] and the rest, which is
    empty or starts with the next section header. *)
Lemma append_boundary (pre : list string) (p : string) (body rest : list string) :
  none is_section body ->
  (forall h, head rest = Some h -> is_section h = true) ->
  default (length (pre ++ p :: body ++ rest))
    (find_from is_section (length pre + 1)
       (drop (length pre + 1) (pre ++ p :: body ++ rest)))
  = length (pre ++ p :: body).
Proof.
  intros Hbody Hrest. rewrite drop_past_first.
  destruct rest as [|h t].
  - rewrite app_nil_r, find_from_none by done. done.
  - rewrite find_from_hit by auto. simpl.
    rewrite length_app. simpl. lia.
Qed.

(** Every template with a [Peer] line is cut in this way. *)
Lemma peer_section_split (lines : list string) :
  ~ none is_peer lines ->
  exists pre p body rest,
    lines = pre ++ p :: body ++ rest
    /\ none is_peer pre /\ is_peer p = true
    /\ none is_section body
    /\ (forall h, head rest = Some h -> is_section h = true).
Proof.
  intros Hp.
  destruct (first_split is_peer lines)
    as [H | (pre & p & post & -> & Hpre & Hpeer)]; [done|].
  exists pre, p.
  destruct (first_split is_section post)
    as [H | (body & h & rest & -> & Hbody & Hh)].
  - exists post, []. rewrite app_nil_r. repeat split; try done.
  - exists body, (h :: rest). repeat split; try done.
    by intros ? [= <-].
Qed.

(** C2. In append mode, for a template with a [Peer] line: [pre] being the
    lines before the first [Peer] line [p], [body] the lines after it up to
    the first one whose trimmed content starts with an opening bracket, and
    [rest] the lines from that one on (empty when there is none), the
    output is the whole template, every line unchanged and in order, with
    the one new line inserted at the index of the first line of [rest],
    which is the end of the sequence when [rest] is empty. *)
Theorem append_output (lines : list string) (allowed_ips : gset string)
    (pre : list string) (p : string) (body rest : list string) :
  lines = pre ++ p :: body ++ rest ->
  none is_peer pre -> is_peer p = true ->
  none is_section body ->
  (forall h, head rest = Some h -> is_section h = true) ->
  update_config_lines lines allowed_ips false
  = Done (Py.insert (length pre + 1 + length body)
            (allowed_ips_line allowed_ips) lines)
  /\ Py.insert (length pre + 1 + length body) (allowed_ips_line allowed_ips) lines
     = pre ++ p :: body ++ allowed_ips_line allowed_ips :: rest.
Proof.
  intros -> Hpre Hp Hbody Hrest.
  assert (length pre + 1 + length body = length (pre ++ p :: body)) as ->
    by (rewrite length_app; simpl; lia).
  split.
  - unfold update_config_lines.
    rewrite find_from_hit by done. simpl.
    by rewrite append_boundary.
  - rewrite (app_comm_cons body rest p), app_assoc, insert_at_length.
    by rewrite <- app_assoc.
Qed.

Lemma append_output_witness :
  update_config_lines
    [ "[Interface]" +:+ LF; "[Peer]" +:+ LF; "AllowedIPs = 9.9.9.9/32" +:+ LF;
      "[Peer]" +:+ LF; "PublicKey = Y" +:+ LF ]
    {[ "1.1.1.1/32" ]} false
  = Done [ "[Interface]" +:+ LF; "[Peer]" +:+ LF;
           "AllowedIPs = 9.9.9.9/32" +:+ LF; "AllowedIPs = 1.1.1.1/32" +:+ LF;
           "[Peer]" +:+ LF; "PublicKey = Y" +:+ LF ].
Proof.
  destruct (append_output
              [ "[Interface]" +:+ LF; "[Peer]" +:+ LF;
                "AllowedIPs = 9.9.9.9/32" +:+ LF;
                "[Peer]" +:+ LF; "PublicKey = Y" +:+ LF ]
              {[ "1.1.1.1/32" ]}
              [ "[Interface]" +:+ LF ] ("[Peer]" +:+ LF)
              [ "AllowedIPs = 9.9.9.9/32" +:+ LF ]
              [ "[Peer]" +:+ LF; "PublicKey = Y" +:+ LF ]) as [H1 H2].
  - reflexivity.
  - by repeat constructor.
  - reflexivity.
  - by repeat constructor.
  - intros h [= <-]. reflexivity.
  - rewrite H1, H2. vm_compute. reflexivity.
Defined.

(** ** When the patcher gives up *)

Lemma not_none_hit (p : string -> bool) (pre : list string) (x : string)
    (post : list string) :
  p x = true -> ~ none p (pre ++ x :: post).
Proof.
  intros Hx H. apply Forall_app in H as [_ H].
  apply Forall_cons in H as [H _]. congruence.
Qed.

(** C3, as the code has it. In overwrite mode the patcher exits exactly
    when the template has neither a [Peer] line nor an AllowedIPs line; in
    append mode it exits exactly when the template has no [Peer] line,
    whether or not it has AllowedIPs lines. In every other case it returns
    the patched lines. *)
Theorem fatal_iff (lines : list string) (allowed_ips : gset string) :
  (update_config_lines lines allowed_ips true = Exit1
   <-> none is_peer lines /\ none is_allowed_ips lines)
  /\ (update_config_lines lines allowed_ips false = Exit1
      <-> none is_peer lines).
Proof.
  split.
  - unfold update_config_lines.
    destruct (first_split is_allowed_ips lines)
      as [Hnone | (pre & a & post & -> & Hpre & Ha)].
    + rewrite overwrite_scan_none by done.
      destruct (find_from is_peer 0 lines) eqn:Hf.
      * split; [done|]. intros [Hp _].
        apply (find_from_none _ 0) in Hp. congruence.
      * apply find_from_None_iff in Hf. done.
    + rewrite overwrite_scan_hit by done.
      split; [done|]. intros [_ H]. by apply not_none_hit in H.
  - unfold update_config_lines.
    destruct (find_from is_peer 0 lines) eqn:Hf.
    + split; [done|]. intros Hp.
      apply (find_from_none _ 0) in Hp. congruence.
    + by apply find_from_None_iff in Hf.
Qed.

(** C3 as stated fails in append mode: a template with an AllowedIPs line
    and no [Peer] line is rejected there, although one of the two anchors
    exists. *)
Lemma fatal_iff_append_counterexample :
  ~ (update_config_lines ["AllowedIPs = 9.9.9.9/32" +:+ LF] {[ "1.1.1.1/32" ]} false
     = Exit1
     <-> none is_peer ["AllowedIPs = 9.9.9.9/32" +:+ LF]
         /\ none is_allowed_ips ["AllowedIPs = 9.9.9.9/32" +:+ LF]).
Proof.
  intros [H _].
  destruct H as [_ H]; [vm_compute; reflexivity|].
  apply Forall_cons in H as [H _]. vm_compute in H. discriminate.
Qed.

(** ** Overwrite mode on the shapes it produces *)

Lemma overwrite_at_first (pre : list string) (a : string) (post : list string)
    (allowed_ips : gset string) :
  none is_allowed_ips pre -> is_allowed_ips a = true ->
  update_config_lines (pre ++ a :: post) allowed_ips true
  = Done (pre ++ allowed_ips_line allowed_ips :: kept post).
Proof.
  intros Hpre Ha. unfold update_config_lines.
  by rewrite overwrite_scan_hit, insert_at_length.
Qed.

Lemma overwrite_after_peer (pre : list string) (p : string) (post : list string)
    (allowed_ips : gset string) :
  none is_allowed_ips (pre ++ p :: post) ->
  none is_peer pre -> is_peer p = true ->
  update_config_lines (pre ++ p :: post) allowed_ips true
  = Done ((pre ++ [p]) ++ allowed_ips_line allowed_ips :: post).
Proof.
  intros Hnone Hpre Hp. unfold update_config_lines.
  rewrite overwrite_scan_none, find_from_hit by done. simpl.
  replace (length pre + 1) with (length (pre ++ [p]))
    by (rewrite length_app; simpl; lia).
  by rewrite (cons_middle p pre post), app_assoc, insert_at_length.
Qed.

Lemma overwrite_no_anchor (lines : list string) (allowed_ips : gset string) :
  none is_allowed_ips lines -> none is_peer lines ->
  update_config_lines lines allowed_ips true = Exit1.
Proof.
  intros Ha Hp. unfold update_config_lines.
  by rewrite overwrite_scan_none, find_from_none.
Qed.

Lemma allowed_ips_lines_none (l : list string) :
  none is_allowed_ips l -> allowed_ips_lines l = [].
Proof.
  induction 1 as [|x l Hx _ IH]; [done|].
  rewrite filter_cons_False; [done | congruence].
Qed.

Lemma one_allowed_ips_line (pre : list string) (a : string) (post : list string) :
  none is_allowed_ips pre -> is_allowed_ips a = true ->
  none is_allowed_ips post ->
  allowed_ips_lines (pre ++ a :: post) = [a].
Proof.
  intros Hpre Ha Hpost.
  rewrite filter_app, filter_cons_True by done.
  by rewrite !allowed_ips_lines_none.
Qed.

Lemma append_at_boundary (pre : list string) (p : string)
    (body rest : list string) (allowed_ips : gset string) :
  none is_peer pre -> is_peer p = true ->
  none is_section body ->
  (forall h, head rest = Some h -> is_section h = true) ->
  update_config_lines (pre ++ p :: body ++ rest) allowed_ips false
  = Done (pre ++ p :: body ++ allowed_ips_line allowed_ips :: rest).
Proof.
  intros Hpre Hp Hbody Hrest. unfold update_config_lines.
  rewrite find_from_hit by done. simpl.
  rewrite append_boundary by done.
  rewrite (app_comm_cons body rest p), app_assoc, insert_at_length.
  by rewrite <- app_assoc.
Qed.

(** ** The AllowedIPs line *)

Lemma fold_add_elem (adds : list string) (ips : gset string) (x : string) :
  x ∈ fold_left (fun ips formatted => ips ∪ {[ formatted ]}) adds ips
  <-> x ∈ ips \/ x ∈ adds.
Proof.
  revert ips. induction adds as [|y adds IH]; intros ips; simpl.
  - rewrite elem_of_nil. tauto.
  - rewrite IH, elem_of_union, elem_of_singleton, elem_of_cons. tauto.
Qed.

Lemma accumulate_elem (adds : list string) (x : string) :
  x ∈ accumulate adds <-> x ∈ adds.
Proof. unfold accumulate. rewrite fold_add_elem, elem_of_empty. tauto. Qed.

Lemma sorted_perm (ips : gset string) : Py.sorted ips ≡ₚ elements ips.
Proof. apply merge_sort_Permutation. Qed.

Lemma sorted_elem (ips : gset string) (x : string) :
  x ∈ Py.sorted ips <-> x ∈ ips.
Proof. by rewrite sorted_perm, elem_of_elements. Qed.

Lemma sorted_NoDup (ips : gset string) : NoDup (Py.sorted ips).
Proof. rewrite sorted_perm. apply NoDup_elements. Qed.

Lemma sorted_ascending (ips : gset string) :
  StronglySorted String.le (Py.sorted ips).
Proof. apply (StronglySorted_merge_sort String.le). Qed.

Lemma sorted_unique (ips : gset string) (l : list string) :
  StronglySorted String.le l -> NoDup l -> (forall x, x ∈ l <-> x ∈ ips) ->
  l = Py.sorted ips.
Proof.
  intros Hs Hn He.
  apply (StronglySorted_unique String.le); [done | apply sorted_ascending |].
  apply NoDup_Permutation; [done | apply sorted_NoDup |].
  intros x. by rewrite He, sorted_elem.
Qed.

Lemma elem_of_py_insert {A} (i : nat) (x : A) (l : list A) : x ∈ Py.insert i x l.
Proof.
  unfold Py.insert. apply elem_of_app. right. apply list_elem_of_here.
Qed.

(** C6. The line the patcher builds, in both modes, is ["AllowedIPs = "],
    then the elements of the set joined by [", "], then a newline, where
    the elements come in ascending order of strings, each once. That list
    is the only ascending duplicate-free list of the set's elements, so the
    line depends on the set alone: two accumulations of the same strings,
    in any order and with any repetitions, give the same line. *)
Theorem allowed_ips_line_format (allowed_ips : gset string) :
  allowed_ips_line allowed_ips
  = "AllowedIPs = " +:+ Py.join ", " (Py.sorted allowed_ips) +:+ LF
  /\ StronglySorted String.le (Py.sorted allowed_ips)
  /\ NoDup (Py.sorted allowed_ips)
  /\ (forall x, x ∈ Py.sorted allowed_ips <-> x ∈ allowed_ips)
  /\ (forall l, StronglySorted String.le l -> NoDup l ->
                (forall x, x ∈ l <-> x ∈ allowed_ips) ->
                l = Py.sorted allowed_ips)
  /\ (forall adds adds',
         (forall x, x ∈ adds <-> x ∈ adds') ->
         allowed_ips_line (accumulate adds) = allowed_ips_line (accumulate adds'))
  /\ (forall lines overwrite out,
         update_config_lines lines allowed_ips overwrite = Done out ->
         allowed_ips_line allowed_ips ∈ out).
Proof.
  split; [reflexivity|].
  split; [apply sorted_ascending|].
  split; [apply sorted_NoDup|].
  split; [apply sorted_elem|].
  split; [apply sorted_unique|].
  split.
  - intros adds adds' H. f_equal. apply set_eq. intros x.
    by rewrite !accumulate_elem.
  - intros lines overwrite out. unfold update_config_lines.
    destruct overwrite.
    + destruct (overwrite_scan lines) as [[k|] output_lines].
      * intros [= <-]. apply elem_of_py_insert.
      * destruct (find_from is_peer 0 output_lines); [|done].
        intros [= <-]. apply elem_of_py_insert.
    + destruct (find_from is_peer 0 lines); [|done].
      intros [= <-]. apply elem_of_py_insert.
Qed.

Lemma allowed_ips_line_format_witness :
  allowed_ips_line (accumulate ["9.9.9.9/32"; "1.2.3.4/32"; "1.2.3.4/32"])
  = allowed_ips_line (accumulate ["1.2.3.4/32"; "9.9.9.9/32"])
  /\ allowed_ips_line (accumulate ["1.2.3.4/32"; "9.9.9.9/32"])
     = "AllowedIPs = 1.2.3.4/32, 9.9.9.9/32" +:+ LF.
Proof.
  split; [|vm_compute; reflexivity].
  destruct (allowed_ips_line_format ∅) as (_ & _ & _ & _ & _ & H & _).
  apply H. intros x. rewrite !list_elem_of_In. simpl. tauto.
Defined.

(** ** The IP-class normaliser *)

(** C7 at the inputs where the code leaves the documented behaviour: a
    token that starts with a slash is returned as it is whenever [int]
    reads what follows as a number from 0 to 32, so a sign, blanks or an
    underscore after the slash pass the check and end up in the suffix. *)
Theorem normalize_accepts_non_cidr :
  normalize_ip_class "/+8" = Done "/+8"
  /\ normalize_ip_class "/ 8 " = Done "/ 8 "
  /\ normalize_ip_class "/1_6" = Done "/1_6"
  /\ normalize_ip_class "/-0" = Done "/-0".
Proof. vm_compute. repeat split. Qed.

(** The documented classes are accepted in any letter case. *)
Lemma normalize_class_names (ip_class : string) :
  (Py.upper ip_class = "A" -> normalize_ip_class ip_class = Done "/8")
  /\ (Py.upper ip_class = "B" -> normalize_ip_class ip_class = Done "/16")
  /\ (Py.upper ip_class = "C" -> normalize_ip_class ip_class = Done "/24")
  /\ (Py.upper ip_class = "HOST" -> normalize_ip_class ip_class = Done "/32").
Proof.
  unfold normalize_ip_class. repeat split; intros ->; vm_compute; reflexivity.
Qed.

Lemma digit_char (c : ascii) :
  is_Some (Py.digit_of c) -> Py.upper_char c = c /\ c <> "/"%char.
Proof.
  destruct c as [[] [] [] [] [] [] [] []]; vm_compute;
    intros [d Hd]; try discriminate Hd; split; (reflexivity || discriminate).
Qed.

Lemma upper_digits (t : string) : Py.all_digits t = true -> Py.upper t = t.
Proof.
  induction t as [|c t IH]; [done|].
  simpl. intros [Hc Ht]%andb_true_iff. apply bool_decide_eq_true in Hc.
  destruct (digit_char c Hc) as [-> _]. by rewrite IH.
Qed.

(** A token of digits is accepted, with a slash put in front, exactly when
    its value is at most 32. *)
Lemma normalize_numeric (t : string) :
  Py.isdigit t = true ->
  normalize_ip_class t
  = match Py.int t with
    | Some n => if ((0 <=? n) && (n <=? 32))%Z then Done ("/" +:+ t) else Exit1
    | None => Exit1
    end.
Proof.
  intros Ht. unfold normalize_ip_class.
  destruct t as [|c t]; [done|].
  rewrite upper_digits by done. rewrite Ht.
  simpl in Ht. apply andb_true_iff in Ht as [Hc _].
  apply bool_decide_eq_true in Hc. destruct (digit_char c Hc) as [_ Hne].
  assert (Py.startswith (String c t) "/" = false) as ->.
  { unfold Py.startswith.
    change (String.prefix "/" (String c t))
      with (if ascii_dec "/"%char c then String.prefix "" t else false).
    destruct (ascii_dec "/"%char c) as [E|_]; [by destruct Hne | done]. }
  reflexivity.
Qed.

(** ** Entries of the domain list *)

Lemma split_comma_free (d : string) :
  comma_free d = true -> Py.split "," d = [d].
Proof.
  induction d as [|c d IH]; simpl; [done|].
  intros [Hc Hd]%andb_true_iff. apply negb_true_iff in Hc.
  by rewrite Hc, IH.
Qed.

Lemma split_at_first (d s : string) :
  comma_free d = true ->
  Py.split "," (d +:+ String "," s) = d :: Py.split "," s.
Proof.
  induction d as [|c d IH]; [done|].
  simpl. intros [Hc Hd]%andb_true_iff. apply negb_true_iff in Hc.
  by rewrite Hc, IH.
Qed.

Lemma split_two (d x : string) :
  comma_free d = true -> comma_free x = true ->
  Py.split "," (d +:+ "," +:+ x) = [d; x].
Proof.
  intros Hd Hx. change ("," +:+ x) with (String "," x).
  by rewrite split_at_first, split_comma_free.
Qed.

Lemma split_three (d x rest : string) :
  comma_free d = true -> comma_free x = true ->
  Py.split "," (d +:+ "," +:+ x +:+ "," +:+ rest) = d :: x :: Py.split "," rest.
Proof.
  intros Hd Hx.
  change (d +:+ "," +:+ x +:+ "," +:+ rest)
    with (d +:+ String "," (x +:+ String "," rest)).
  by rewrite !split_at_first.
Qed.

Lemma fold_add_fmap (f : string -> string) (answers : list string)
    (ips : gset string) :
  fold_left (fun ips answer => ips ∪ {[ f answer ]}) answers ips
  = fold_left (fun ips formatted => ips ∪ {[ formatted ]}) (f <$> answers) ips.
Proof.
  revert ips. induction answers as [|a answers IH]; intros ips; [done|].
  simpl. apply IH.
Qed.

(** C10. For an entry with two or more commas, the domain is the text
    before the first comma and the CIDR suffix is the text between the
    first and the second comma, both with surrounding whitespace removed;
    what follows the second comma changes nothing: the entry resolves as
    the entry cut at the second comma does. *)
Theorem extra_fields_ignored (dns_resolve : string -> option (list string))
    (dflt d x rest : string) :
  comma_free d = true -> comma_free x = true ->
  entry_domain (d +:+ "," +:+ x +:+ "," +:+ rest) = Py.strip d
  /\ entry_ip_class dflt (d +:+ "," +:+ x +:+ "," +:+ rest) = Py.strip x
  /\ resolve_domains dns_resolve [d +:+ "," +:+ x +:+ "," +:+ rest] dflt
     = resolve_domains dns_resolve [d +:+ "," +:+ x] dflt.
Proof.
  intros Hd Hx.
  assert (entry_domain (d +:+ "," +:+ x +:+ "," +:+ rest) = Py.strip d) as E1
    by (unfold entry_domain; by rewrite split_three).
  assert (entry_ip_class dflt (d +:+ "," +:+ x +:+ "," +:+ rest) = Py.strip x)
    as E2 by (unfold entry_ip_class; by rewrite split_three).
  assert (entry_domain (d +:+ "," +:+ x) = Py.strip d) as E3
    by (unfold entry_domain; by rewrite split_two).
  assert (entry_ip_class dflt (d +:+ "," +:+ x) = Py.strip x) as E4
    by (unfold entry_ip_class; by rewrite split_two).
  repeat split; [done | done |].
  unfold resolve_domains. simpl. unfold resolve_step.
  by rewrite E1, E2, E3, E4.
Qed.

Lemma extra_fields_ignored_witness :
  resolve_domains dns1 ["example.com, /24 ,/8,junk"] "/32"
  = Resolution ["example.com"] {[ "93.184.216.34/24" ]}.
Proof.
  destruct (extra_fields_ignored dns1 "/32" "example.com" " /24 " "/8,junk")
    as (_ & _ & H); [reflexivity | reflexivity |].
  etrans; [exact H|]. vm_compute. reflexivity.
Defined.

(** C8, as the code has it. Only the global default goes through the
    normaliser. The override of an entry is the text after the comma with
    surrounding whitespace removed, and it is appended as it is to every
    address resolved for the entry's domain: it is not validated, and the
    resolver stage has no exit, whatever the override is. *)
Theorem override_taken_verbatim (dns_resolve : string -> option (list string))
    (dflt d c : string) :
  comma_free d = true -> comma_free c = true ->
  resolve_domains dns_resolve [d +:+ "," +:+ c] dflt
  = Resolution [Py.strip d]
      (accumulate ((fun answer => answer +:+ Py.strip c)
                     <$> default [] (dns_resolve (Py.strip d)))).
Proof.
  intros Hd Hc. unfold resolve_domains. simpl. unfold resolve_step.
  assert (entry_domain (d +:+ "," +:+ c) = Py.strip d) as ->
    by (unfold entry_domain; by rewrite split_two).
  assert (entry_ip_class dflt (d +:+ "," +:+ c) = Py.strip c) as ->
    by (unfold entry_ip_class; by rewrite split_two).
  simpl. destruct (dns_resolve (Py.strip d)) as [answers|]; simpl; [|done].
  by rewrite fold_add_fmap.
Qed.

Lemma override_taken_verbatim_witness :
  resolve_domains dns1 ["example.com,24"] "/32"
  = Resolution ["example.com"] {[ "93.184.216.3424" ]}.
Proof.
  etrans; [apply (override_taken_verbatim dns1 "/32" "example.com" "24");
           reflexivity|].
  vm_compute. reflexivity.
Defined.

(** C8 as stated fails: an override that the normaliser rejects does not
    stop the run, and its text is what ends up appended to the address. *)
Lemma override_not_normalized_counterexample :
  normalize_ip_class "banana" = Exit1
  /\ main dns1 (Disk (Some template1) None) "example.com,banana" "32" false
     = Done (["example.com"],
             Py.join "" (template1
                         ++ ["AllowedIPs = 93.184.216.34banana" +:+ LF])).
Proof. vm_compute. split; reflexivity. Qed.

(** C9 at a URL: the resolver is asked about the whole entry, scheme and
    path included, both for the single argument and for a line of the
    domain file, since nothing calls [extract_domain]. With a resolver that
    knows the host only, the run ends without any address. *)
Theorem url_reaches_resolver :
  (forall dns_resolve dflt,
      queried (resolve_domains dns_resolve ["https://example.com/path"] dflt)
      = ["https://example.com/path"])
  /\ read_domains_from_file (Some ["https://example.com/path" +:+ LF])
     = Done ["https://example.com/path"]
  /\ main dns1 (Disk (Some template1) None) "https://example.com/path" "32" false
     = Exit1
  /\ main dns1 (Disk (Some template1) None) "example.com" "32" false
     = Done (["example.com"],
             Py.join "" (template1 ++ ["AllowedIPs = 93.184.216.34/32" +:+ LF])).
Proof.
  split; [|vm_compute; repeat split].
  intros dns_resolve dflt. unfold resolve_domains. simpl. unfold resolve_step.
  change (entry_domain "https://example.com/path") with "https://example.com/path".
  by destruct (dns_resolve "https://example.com/path").
Qed.

(** ** More about the patcher *)

Lemma overwrite_scan_kept (lines : list string) :
  (overwrite_scan lines).2 = kept lines.
Proof.
  destruct (first_split is_allowed_ips lines)
    as [Hnone | (pre & a & post & -> & Hpre & Ha)].
  - by rewrite overwrite_scan_none, kept_none.
  - by rewrite overwrite_scan_hit, kept_split.
Qed.

Lemma kept_py_insert (i : nat) (x : string) (l : list string) :
  is_allowed_ips x = true -> kept (Py.insert i x l) = kept l.
Proof.
  intros Hx. unfold Py.insert.
  rewrite filter_app, filter_cons_False by congruence.
  by rewrite <- filter_app, take_drop.
Qed.

Lemma length_py_insert {A} (i : nat) (x : A) (l : list A) :
  length (Py.insert i x l) = S (length l).
Proof.
  unfold Py.insert. rewrite <- (take_drop i l) at 3.
  rewrite !length_app. simpl. lia.
Qed.

(** What a successful run of [update_config_lines] returns: the new line
    put at some index of the lines it started from, which are those of the
    template in append mode and the copied ones in overwrite mode. *)
Lemma patched_shape (lines : list string) (allowed_ips : gset string)
    (overwrite : bool) (out : list string) :
  update_config_lines lines allowed_ips overwrite = Done out ->
  exists i, out = Py.insert i (allowed_ips_line allowed_ips)
                    (if overwrite then kept lines else lines).
Proof.
  unfold update_config_lines. destruct overwrite.
  - pose proof (overwrite_scan_kept lines) as Hk.
    destruct (overwrite_scan lines) as [[k|] output_lines]; simpl in Hk; subst.
    + intros [= <-]. by eexists.
    + destruct (find_from is_peer 0 (kept lines)); [|done].
      intros [= <-]. by eexists.
  - destruct (find_from is_peer 0 lines); [|done].
    intros [= <-]. by eexists.
Qed.

(** X1. Whatever the mode, a successful run leaves every line that is not
    an AllowedIPs line as it was and where it was among its like: dropping
    the AllowedIPs lines from the output and from the template gives the
    same sequence. The output has one line more than the template in
    append mode, and one line more than the template has lines other than
    AllowedIPs lines in overwrite mode. *)
Theorem other_lines_untouched (lines : list string) (allowed_ips : gset string)
    (overwrite : bool) (out : list string) :
  update_config_lines lines allowed_ips overwrite = Done out ->
  kept out = kept lines
  /\ length out
     = S (if overwrite then length (kept lines) else length lines).
Proof.
  intros [i ->]%patched_shape.
  rewrite kept_py_insert by apply allowed_ips_line_is_allowed_ips.
  rewrite length_py_insert.
  destruct overwrite; [|done].
  by rewrite kept_none by apply none_kept.
Qed.

Lemma other_lines_untouched_witness :
  kept [ "[Peer]" +:+ LF; "AllowedIPs = 1.1.1.1/32" +:+ LF; "PublicKey = X" +:+ LF ]
  = kept [ "[Peer]" +:+ LF; "AllowedIPs = 9.9.9.9/32" +:+ LF;
           "PublicKey = X" +:+ LF; "AllowedIPs = 8.8.8.8/32" +:+ LF ]
  /\ length [ "[Peer]" +:+ LF; "AllowedIPs = 1.1.1.1/32" +:+ LF;
              "PublicKey = X" +:+ LF ]
     = S (length (kept [ "[Peer]" +:+ LF; "AllowedIPs = 9.9.9.9/32" +:+ LF;
                         "PublicKey = X" +:+ LF;
                         "AllowedIPs = 8.8.8.8/32" +:+ LF ])).
Proof.
  apply (other_lines_untouched _ {[ "1.1.1.1/32" ]} true).
  vm_compute. reflexivity.
Defined.

(** ** The text handed to the output sink *)

Lemma append_empty_r (s : string) : s +:+ "" = s.
Proof. induction s as [|c s IH]; [done|]. by rewrite append_cons, IH. Qed.

Lemma append_assoc_str (s t u : string) : (s +:+ t) +:+ u = s +:+ t +:+ u.
Proof. induction s as [|c s IH]; [done|]. by rewrite !append_cons, IH. Qed.

Lemma join_empty_cons (x : string) (l : list string) :
  Py.join "" (x :: l) = x +:+ Py.join "" l.
Proof. destruct l; simpl; [by rewrite append_empty_r | done]. Qed.

Lemma join_empty_app (l1 l2 : list string) :
  Py.join "" (l1 ++ l2) = Py.join "" l1 +:+ Py.join "" l2.
Proof.
  induction l1 as [|x l1 IH]; [done|].
  rewrite <- app_comm_cons, !join_empty_cons, IH.
  by rewrite append_assoc_str.
Qed.

Lemma join_empty_insert (i : nat) (x : string) (l : list string) :
  Py.join "" (Py.insert i x l)
  = Py.join "" (take i l) +:+ x +:+ Py.join "" (drop i l).
Proof. unfold Py.insert. by rewrite join_empty_app, join_empty_cons. Qed.

Lemma update_config_text (lines : list string) (allowed_ips : gset string)
    (overwrite : bool) (text : string) :
  update_config (Some lines) allowed_ips overwrite = Done text ->
  exists before after,
    Py.join "" (if overwrite then kept lines else lines) = before +:+ after
    /\ text = before +:+ allowed_ips_line allowed_ips +:+ after.
Proof.
  unfold update_config.
  destruct (update_config_lines lines allowed_ips overwrite) as [|out] eqn:E;
    [done|].
  apply patched_shape in E as [i ->]. intros [= <-].
  set (base := if overwrite then kept lines else lines).
  exists (Py.join "" (take i base)), (Py.join "" (drop i base)).
  by rewrite <- join_empty_app, take_drop, join_empty_insert.
Qed.

(** X2. The text of a successful run is the text it started from with the
    new line spliced in at one place and nothing else changed: the text of
    the template in append mode, the text of the template's lines other
    than AllowedIPs lines in overwrite mode. *)
Theorem text_spliced (lines : list string) (allowed_ips : gset string)
    (overwrite : bool) (text : string) :
  update_config (Some lines) allowed_ips overwrite = Done text ->
  exists before after,
    Py.join "" (if overwrite then kept lines else lines) = before +:+ after
    /\ text = before +:+ allowed_ips_line allowed_ips +:+ after.
Proof. apply update_config_text. Qed.

Lemma text_spliced_witness :
  exists before after,
    Py.join "" template1 = before +:+ after
    /\ Py.join "" (template1 ++ ["AllowedIPs = 1.2.3.4/32" +:+ LF])
       = before +:+ allowed_ips_line {[ "1.2.3.4/32" ]} +:+ after.
Proof.
  apply (text_spliced template1 {[ "1.2.3.4/32" ]} false).
  vm_compute. reflexivity.
Defined.

(** X3. In append mode, when no line after the first [Peer] line opens a
    section, the output text is the template text followed by the new
    line. Nothing is put between the two, so a template whose last line
    has no newline gets the new key glued to that line. *)
Theorem append_text_at_end (pre : list string) (p : string)
    (body : list string) (allowed_ips : gset string) :
  none is_peer pre -> is_peer p = true -> none is_section body ->
  update_config (Some (pre ++ p :: body)) allowed_ips false
  = Done (Py.join "" (pre ++ p :: body) +:+ allowed_ips_line allowed_ips).
Proof.
  intros Hpre Hp Hbody. unfold update_config.
  rewrite <- (app_nil_r body) at 1.
  rewrite append_at_boundary by (done || by intros h [=]).
  cbn [mbind outcome_bind mret outcome_ret]. f_equal.
  rewrite (app_comm_cons body [_] p), app_assoc, join_empty_app.
  by rewrite join_empty_cons, append_empty_r.
Qed.

Lemma append_text_at_end_witness :
  update_config (Some ["[Peer]" +:+ LF; "PublicKey = X"]) {[ "1.2.3.4/32" ]} false
  = Done ("[Peer]" +:+ LF +:+ "PublicKey = XAllowedIPs = 1.2.3.4/32" +:+ LF).
Proof.
  etrans; [apply (append_text_at_end [] ("[Peer]" +:+ LF) ["PublicKey = X"]);
           (reflexivity || by repeat constructor)|].
  vm_compute. reflexivity.
Defined.

(** ** Whitespace around a line *)

Lemma lstrip_all_space (w : string) : all_space w = true -> Py.lstrip w = "".
Proof.
  induction w as [|c w IH]; [done|].
  simpl. intros [Hc Hw]%andb_true_iff. rewrite Hc. auto.
Qed.

Lemma rstrip_all_space (w : string) : all_space w = true -> Py.rstrip w = "".
Proof.
  induction w as [|c w IH]; [done|].
  simpl. intros [Hc Hw]%andb_true_iff. by rewrite IH, Hc.
Qed.

Lemma lstrip_space_prefix (w s : string) :
  all_space w = true -> Py.lstrip (w +:+ s) = Py.lstrip s.
Proof.
  induction w as [|c w IH]; [done|].
  simpl. intros [Hc Hw]%andb_true_iff. rewrite Hc. auto.
Qed.

Lemma rstrip_space_suffix (s w : string) :
  all_space w = true -> Py.rstrip (s +:+ w) = Py.rstrip s.
Proof.
  intros Hw. induction s as [|c s IH].
  - by rewrite append_empty_l, rstrip_all_space.
  - rewrite append_cons. simpl. by rewrite IH.
Qed.

Lemma strip_space_suffix (s w : string) :
  all_space w = true -> Py.strip (s +:+ w) = Py.strip s.
Proof.
  intros Hw. unfold Py.strip. induction s as [|c s IH].
  - by rewrite append_empty_l, lstrip_all_space.
  - rewrite append_cons. simpl. destruct (Py.isspace c); [done|].
    by rewrite <- append_cons, rstrip_space_suffix.
Qed.

Lemma strip_surrounding (w1 s w2 : string) :
  all_space w1 = true -> all_space w2 = true ->
  Py.strip (w1 +:+ s +:+ w2) = Py.strip s.
Proof.
  intros H1 H2. rewrite <- (strip_space_suffix s w2) by done.
  unfold Py.strip. by rewrite lstrip_space_prefix.
Qed.

(** X4. Indentation and trailing whitespace never matter to the patcher:
    a line with whitespace put before it and after it is a [Peer] line, an
    AllowedIPs line or a section header exactly when the line itself is. *)
Theorem surrounding_whitespace_ignored (w1 line w2 : string) :
  all_space w1 = true -> all_space w2 = true ->
  is_peer (w1 +:+ line +:+ w2) = is_peer line
  /\ is_allowed_ips (w1 +:+ line +:+ w2) = is_allowed_ips line
  /\ is_section (w1 +:+ line +:+ w2) = is_section line.
Proof.
  intros H1 H2. unfold is_peer, is_allowed_ips, is_section.
  by rewrite strip_surrounding.
Qed.

Lemma surrounding_whitespace_ignored_witness :
  is_peer ("   " +:+ "[Peer]" +:+ (" " +:+ LF)) = is_peer "[Peer]"
  /\ is_allowed_ips ("   " +:+ "[Peer]" +:+ (" " +:+ LF)) = is_allowed_ips "[Peer]"
  /\ is_section ("   " +:+ "[Peer]" +:+ (" " +:+ LF)) = is_section "[Peer]".
Proof.
  apply (surrounding_whitespace_ignored "   " "[Peer]" (" " +:+ LF)); reflexivity.
Defined.

Lemma compact_key_not_allowed_ips (w rest : string) :
  all_space w = true -> is_allowed_ips (w +:+ "AllowedIPs=" +:+ rest) = false.
Proof.
  intros Hw. unfold is_allowed_ips, Py.strip.
  rewrite lstrip_space_prefix by done.
  change ("AllowedIPs=" +:+ rest) with ("AllowedIPs" +:+ String "="%char rest).
  change (Py.lstrip ("AllowedIPs" +:+ String "="%char rest))
    with ("AllowedIPs" +:+ String "="%char rest).
  rewrite rstrip_keeps_before by reflexivity. reflexivity.
Qed.

(** X5. The key is recognised only with a blank before the equals sign. A
    line that writes it without the blank, indented or not, is not an
    AllowedIPs line for the patcher: overwrite mode does not remove it,
    and the output holds it next to the new line. *)
Theorem compact_key_survives_overwrite (w rest : string) (lines : list string)
    (allowed_ips : gset string) (out : list string) :
  all_space w = true ->
  (w +:+ "AllowedIPs=" +:+ rest) ∈ lines ->
  update_config_lines lines allowed_ips true = Done out ->
  is_allowed_ips (w +:+ "AllowedIPs=" +:+ rest) = false
  /\ (w +:+ "AllowedIPs=" +:+ rest) ∈ out
  /\ allowed_ips_line allowed_ips ∈ out.
Proof.
  intros Hw Hin Hout.
  pose proof (compact_key_not_allowed_ips w rest Hw) as Hk.
  split; [done|].
  apply patched_shape in Hout as Hs. destruct Hs as [i ->].
  split; [|apply elem_of_py_insert].
  assert ((w +:+ "AllowedIPs=" +:+ rest) ∈ kept lines) as Hkept
    by (by apply list_elem_of_filter).
  unfold Py.insert. rewrite <- (take_drop i (kept lines)) in Hkept.
  apply elem_of_app in Hkept as [H|H]; apply elem_of_app; [by left|].
  right. by apply list_elem_of_further.
Qed.

Lemma compact_key_survives_overwrite_witness :
  is_allowed_ips ("" +:+ "AllowedIPs=" +:+ ("9.9.9.9/32" +:+ LF)) = false
  /\ ("" +:+ "AllowedIPs=" +:+ ("9.9.9.9/32" +:+ LF))
       ∈ [ "[Peer]" +:+ LF; "AllowedIPs = 1.1.1.1/32" +:+ LF;
           "AllowedIPs=9.9.9.9/32" +:+ LF ]
  /\ allowed_ips_line {[ "1.1.1.1/32" ]}
       ∈ [ "[Peer]" +:+ LF; "AllowedIPs = 1.1.1.1/32" +:+ LF;
           "AllowedIPs=9.9.9.9/32" +:+ LF ].
Proof.
  apply (compact_key_survives_overwrite "" ("9.9.9.9/32" +:+ LF)
           [ "[Peer]" +:+ LF; "AllowedIPs=9.9.9.9/32" +:+ LF ]).
  - reflexivity.
  - apply list_elem_of_further, list_elem_of_here.
  - vm_compute. reflexivity.
Defined.

(** ** More about the normaliser *)

Lemma upper_char_idemp (c : ascii) :
  Py.upper_char (Py.upper_char c) = Py.upper_char c.
Proof. destruct c as [[] [] [] [] [] [] [] []]; reflexivity. Qed.

Lemma upper_idemp (s : string) : Py.upper (Py.upper s) = Py.upper s.
Proof.
  induction s as [|c s IH]; [done|].
  simpl. by rewrite upper_char_idemp, IH.
Qed.

Lemma class_lookup (u c : string) :
  CLASS_TO_CIDR !! u = Some c ->
  (u = "A" /\ c = "/8") \/ (u = "B" /\ c = "/16")
  \/ (u = "C" /\ c = "/24") \/ (u = "HOST" /\ c = "/32").
Proof.
  unfold CLASS_TO_CIDR. rewrite !lookup_insert_Some, lookup_empty.
  intuition (subst; (discriminate || auto)).
Qed.

Lemma normalize_accepted (ip_class c : string) :
  normalize_ip_class ip_class = Done c -> accepted c.
Proof.
  unfold normalize_ip_class, accepted.
  set (u := Py.upper ip_class).
  assert (Py.upper u = u) as Hu by apply upper_idemp.
  assert (forall cidr,
             Py.upper cidr = cidr -> Py.startswith cidr "/" = true ->
             match Py.int (Py.from1 cidr) with
             | Some n => if ((0 <=? n) && (n <=? 32))%Z then Done cidr else Exit1
             | None => Exit1
             end = Done c ->
             Py.upper c = c /\ Py.startswith c "/" = true
             /\ exists n, Py.int (Py.from1 c) = Some n /\ (0 <= n <= 32)%Z)
    as Hcheck.
  { intros cidr H1 H2.
    destruct (Py.int (Py.from1 cidr)) as [n|] eqn:Hn; [|done].
    destruct ((0 <=? n) && (n <=? 32))%Z eqn:Hr; [|done].
    intros [= <-]. repeat split; [done | done |].
    exists n. split; [done|]. apply andb_true_iff in Hr as [?%Z.leb_le ?%Z.leb_le].
    lia. }
  clearbody u.
  destruct (Py.startswith u "/") eqn:Hs; cbn [mbind outcome_bind].
  - by apply Hcheck.
  - destruct (Py.isdigit u) eqn:Hd; cbn [mbind outcome_bind].
    + apply Hcheck; [|apply (startswith_append "/" u)].
      change (Py.upper ("/" +:+ u)) with (String "/" (Py.upper u)).
      by rewrite Hu.
    + destruct (CLASS_TO_CIDR !! u) as [cidr|] eqn:Hl; [|done].
      cbn [mbind outcome_bind].
      apply class_lookup in Hl as [[_ ->]|[[_ ->]|[[_ ->]|[_ ->]]]];
        by apply Hcheck.
Qed.

(** X6. Whatever [normalize_ip_class] returns starts with a slash, has no
    lower-case letter, and what follows the slash is read by [int] as a
    number from 0 to 32. *)
Theorem normalize_result_checked (ip_class c : string) :
  normalize_ip_class ip_class = Done c ->
  Py.startswith c "/" = true
  /\ Py.upper c = c
  /\ exists n, Py.int (Py.from1 c) = Some n /\ (0 <= n <= 32)%Z.
Proof.
  intros (H1 & H2 & H3)%normalize_accepted. auto.
Qed.

Lemma normalize_result_checked_witness :
  Py.startswith "/32" "/" = true
  /\ Py.upper "/32" = "/32"
  /\ exists n, Py.int (Py.from1 "/32") = Some n /\ (0 <= n <= 32)%Z.
Proof. apply (normalize_result_checked "host"). vm_compute. reflexivity. Defined.

Lemma normalize_of_accepted (c : string) :
  accepted c -> normalize_ip_class c = Done c.
Proof.
  intros (Hu & Hs & n & Hn & Hr). unfold normalize_ip_class.
  rewrite Hu, Hs. cbn [mbind outcome_bind]. rewrite Hn.
  destruct (Z.leb_spec 0 n), (Z.leb_spec n 32); (done || lia).
Qed.

(** X7. Normalising is idempotent: a suffix that [normalize_ip_class]
    returned is accepted again and comes back unchanged. *)
Theorem normalize_idempotent (ip_class c : string) :
  normalize_ip_class ip_class = Done c -> normalize_ip_class c = Done c.
Proof. intros H%normalize_accepted. by apply normalize_of_accepted. Qed.

Lemma normalize_idempotent_witness : normalize_ip_class "/24" = Done "/24".
Proof. apply (normalize_idempotent "c"). vm_compute. reflexivity. Defined.

(** X8. Letter case never matters to the normaliser: a token and its
    upper-case form normalise alike, and so do any two tokens that differ
    in letter case only. *)
Theorem normalize_ignores_case (t1 t2 : string) :
  normalize_ip_class (Py.upper t1) = normalize_ip_class t1
  /\ (Py.upper t1 = Py.upper t2 ->
      normalize_ip_class t1 = normalize_ip_class t2).
Proof.
  split.
  - unfold normalize_ip_class. by rewrite upper_idemp.
  - unfold normalize_ip_class. by intros ->.
Qed.

Lemma normalize_ignores_case_witness :
  normalize_ip_class "hOsT" = normalize_ip_class "Host".
Proof. apply (normalize_ignores_case "hOsT" "Host"). reflexivity. Defined.

Lemma digit_not_space (c : ascii) :
  is_Some (Py.digit_of c) ->
  Py.int_isspace c = false /\ c <> "+"%char /\ c <> "-"%char.
Proof.
  destruct c as [[] [] [] [] [] [] [] []]; vm_compute;
    intros [d Hd]; try discriminate Hd; repeat split; discriminate.
Qed.

Lemma digit_range (c : ascii) (d : Z) :
  Py.digit_of c = Some d -> (0 <= d <= 9)%Z.
Proof.
  unfold Py.digit_of.
  destruct (48 <=? nat_of_ascii c) eqn:H1; [|done].
  destruct (nat_of_ascii c <=? 57) eqn:H2; [|done].
  apply Nat.leb_le in H1, H2. intros [= <-]. lia.
Qed.

Lemma int_rstrip_digits (t : string) :
  Py.all_digits t = true -> Py.int_rstrip t = t.
Proof.
  induction t as [|c t IH]; [done|].
  simpl. intros [Hc Ht]%andb_true_iff. apply bool_decide_eq_true in Hc.
  destruct (digit_not_space c Hc) as [Hs _].
  rewrite IH, Hs by done. by destruct t.
Qed.

Lemma count_digits_all (t : string) :
  Py.all_digits t = true -> Py.count_digits t = Z.of_nat (String.length t).
Proof.
  induction t as [|c t IH]; [done|].
  simpl String.length. simpl Py.all_digits. simpl Py.count_digits.
  intros [Hc Ht]%andb_true_iff. apply bool_decide_eq_true in Hc.
  destruct Hc as [d ->]. rewrite IH by done. lia.
Qed.

Lemma int_digits_all (t : string) (acc : Z) :
  Py.all_digits t = true -> Py.int_digits acc t = Some (decimal_from acc t).
Proof.
  revert acc. induction t as [|c t IH]; intros acc; [done|].
  simpl. intros [Hc Ht]%andb_true_iff. apply bool_decide_eq_true in Hc.
  destruct Hc as [d Hd]. rewrite Hd. simpl. by apply IH.
Qed.

Lemma decimal_from_ge (t : string) (acc : Z) :
  (0 <= acc)%Z -> (acc <= decimal_from acc t)%Z.
Proof.
  revert acc. induction t as [|c t IH]; intros acc Hacc; simpl; [lia|].
  assert (0 <= default 0%Z (Py.digit_of c))%Z as Hd.
  { destruct (Py.digit_of c) as [d|] eqn:E; simpl; [|lia].
    apply digit_range in E. lia. }
  etrans; [|apply IH]; lia.
Qed.

Lemma int_of_digits (t : string) :
  Py.isdigit t = true ->
  Py.int t
  = if (Py.max_str_digits <? Z.of_nat (String.length t))%Z then None
    else Some (decimal_value t).
Proof.
  destruct t as [|c t]; [done|]. intros Ht.
  pose proof Ht as Ht'. simpl in Ht'.
  apply andb_true_iff in Ht' as [Hc Hrest]. apply bool_decide_eq_true in Hc.
  destruct (digit_not_space c Hc) as (Hs & Hplus & Hminus).
  assert (Py.int_unsigned (String c t)
          = if (Py.max_str_digits <? Z.of_nat (String.length (String c t)))%Z
            then None else Some (decimal_value (String c t))) as Hu.
  { unfold Py.int_unsigned. rewrite count_digits_all by done.
    destruct Hc as [d Hd]. rewrite Hd.
    destruct (Py.max_str_digits <? _)%Z; [done|].
    unfold decimal_value. simpl. rewrite Hd. simpl.
    by rewrite int_digits_all. }
  rewrite <- Hu. unfold Py.int.
  assert (Py.int_lstrip (String c t) = String c t) as ->
    by (simpl; by rewrite Hs).
  rewrite int_rstrip_digits by done.
  clear Hu Ht Hrest Hs.
  destruct c as [[] [] [] [] [] [] [] []]; try reflexivity;
    by (destruct Hplus || destruct Hminus).
Qed.

(** X9. A token made of the digits 0 to 9 is accepted exactly when it has
    at most 4300 digits, the limit beyond which [int] refuses a literal,
    and the number it writes is at most 32; the suffix is then a slash
    followed by the token as it was given, leading zeros included. *)
Theorem normalize_digits (t : string) :
  Py.isdigit t = true ->
  normalize_ip_class t
  = if ((Z.of_nat (String.length t) <=? 4300) && (decimal_value t <=? 32))%Z
    then Done ("/" +:+ t) else Exit1.
Proof.
  intros Ht. rewrite normalize_numeric, int_of_digits by done.
  unfold Py.max_str_digits. rewrite Z.ltb_antisym.
  destruct (Z.of_nat (String.length t) <=? 4300)%Z; [|done].
  assert (0 <= decimal_value t)%Z as H0 by (by apply decimal_from_ge).
  apply Z.leb_le in H0. simpl. by rewrite H0.
Qed.

Lemma normalize_digits_witness :
  normalize_ip_class "0024" = Done "/0024"
  /\ normalize_ip_class "33" = Exit1.
Proof.
  split.
  - etrans; [by apply (normalize_digits "0024")|]. reflexivity.
  - etrans; [by apply (normalize_digits "33")|]. reflexivity.
Defined.

(** ** The input reader *)

Lemma rstrip_idemp (s : string) : Py.rstrip (Py.rstrip s) = Py.rstrip s.
Proof.
  induction s as [|c s IH]; [done|].
  simpl. destruct (Py.rstrip s) as [|a r] eqn:E.
  - destruct (Py.isspace c) eqn:Hc; simpl; [done | by rewrite Hc].
  - change (Py.rstrip (String c (String a r)))
      with (match Py.rstrip (String a r) with
            | EmptyString =>
                if Py.isspace c then EmptyString else String c EmptyString
            | r' => String c r'
            end).
    by rewrite IH.
Qed.

Lemma lstrip_head_kept (s : string) : head_kept (Py.lstrip s).
Proof.
  induction s as [|c s IH]; [done|].
  simpl. by destruct (Py.isspace c) eqn:Hc.
Qed.

Lemma rstrip_head_kept (s : string) : head_kept s -> head_kept (Py.rstrip s).
Proof.
  destruct s as [|c s]; [done|]. simpl. intros Hc.
  rewrite Hc. by destruct (Py.rstrip s).
Qed.

Lemma lstrip_of_head_kept (s : string) : head_kept s -> Py.lstrip s = s.
Proof. destruct s as [|c s]; [done|]. simpl. by intros ->. Qed.

Lemma strip_idemp (s : string) : Py.strip (Py.strip s) = Py.strip s.
Proof.
  unfold Py.strip at 1.
  rewrite lstrip_of_head_kept
    by (apply rstrip_head_kept, lstrip_head_kept).
  apply rstrip_idemp.
Qed.

Lemma read_fold (lines domains : list string) :
  fold_left read_step lines domains
  = domains ++ (Py.strip <$> filter (fun line => is_entry line = true) lines).
Proof.
  revert domains. induction lines as [|line lines IH]; intros domains; simpl.
  - by rewrite app_nil_r.
  - rewrite IH. unfold read_step. fold (is_entry line).
    destruct (is_entry line) eqn:E.
    + rewrite filter_cons_True by done. by rewrite <- app_assoc.
    + rewrite filter_cons_False by congruence. done.
Qed.

(** X10. Reading a readable domain file never fails, and gives, in file
    order, the stripped text of the lines that are neither blank nor
    comments. Every entry it gives is therefore free of surrounding
    whitespace, not empty, and starts neither with a hash sign nor with
    two slashes. *)
Theorem read_domains_entries (lines : list string) :
  read_domains_from_file (Some lines)
  = Done (Py.strip <$> filter (fun line => is_entry line = true) lines)
  /\ Forall (fun entry =>
              Py.strip entry = entry /\ entry <> ""
              /\ Py.startswith entry "#" = false
              /\ Py.startswith entry "//" = false)
       (Py.strip <$> filter (fun line => is_entry line = true) lines).
Proof.
  split.
  - unfold read_domains_from_file. by rewrite read_fold.
  - apply Forall_fmap, Forall_forall. intros line [He _]%list_elem_of_filter.
    simpl. rewrite strip_idemp. unfold is_entry in He.
    apply andb_true_iff in He as [[H1 H2]%andb_true_iff H3].
    apply negb_true_iff in H1, H2, H3.
    apply bool_decide_eq_false in H1. done.
Qed.

(** X11. Blank lines and comment lines, indented or not, leave no trace:
    the file read with such a line anywhere in it gives the same entries
    as the file without that line. *)
Theorem read_skips_noise (before : list string) (line : string)
    (after : list string) :
  is_entry line = false ->
  read_domains_from_file (Some (before ++ line :: after))
  = read_domains_from_file (Some (before ++ after)).
Proof.
  intros H. unfold read_domains_from_file. rewrite !read_fold.
  rewrite !filter_app, filter_cons_False by congruence. done.
Qed.

Lemma read_skips_noise_witness :
  read_domains_from_file
    (Some [ "example.com" +:+ LF; "   # a comment" +:+ LF; "example.org,/24" +:+ LF ])
  = read_domains_from_file
      (Some [ "example.com" +:+ LF; "example.org,/24" +:+ LF ]).
Proof.
  apply (read_skips_noise [ "example.com" +:+ LF ] ("   # a comment" +:+ LF)).
  reflexivity.
Defined.

(** ** The resolver stage *)

Section ResolverFacts.

Variable dns_resolve : string -> option (list string).
Variable dflt : string.

Lemma resolve_fold_queried (entries : list string) (st : resolution) :
  queried (fold_left (resolve_step dns_resolve dflt) entries st)
  = queried st ++ (entry_domain <$> entries).
Proof.
  revert st. induction entries as [|e entries IH]; intros st; simpl.
  - by rewrite app_nil_r.
  - rewrite IH. unfold resolve_step.
    destruct (dns_resolve (entry_domain e)); simpl; by rewrite <- app_assoc.
Qed.

Lemma resolve_step_elem (st : resolution) (e x : string) :
  x ∈ resolved_ips (resolve_step dns_resolve dflt st e)
  <-> x ∈ resolved_ips st \/ x ∈ adds_of dns_resolve dflt e.
Proof.
  unfold resolve_step, adds_of.
  destruct (dns_resolve (entry_domain e)) as [answers|]; simpl.
  - by rewrite fold_add_fmap, fold_add_elem.
  - rewrite elem_of_nil. tauto.
Qed.

Lemma resolve_fold_elem (entries : list string) (st : resolution) (x : string) :
  x ∈ resolved_ips (fold_left (resolve_step dns_resolve dflt) entries st)
  <-> x ∈ resolved_ips st \/ exists e, e ∈ entries /\ x ∈ adds_of dns_resolve dflt e.
Proof.
  revert st. induction entries as [|e entries IH]; intros st; simpl.
  - split; [auto|]. intros [H|(e & He & _)]; [done|]. by apply elem_of_nil in He.
  - rewrite IH, resolve_step_elem. split.
    + intros [[H|H]|(e' & He' & H)]; [by left | right | right].
      * exists e. split; [apply list_elem_of_here | done].
      * exists e'. split; [by apply list_elem_of_further | done].
    + intros [H|(e' & He' & H)]; [by left; left|].
      apply elem_of_cons in He' as [->|He']; [by left; right|].
      right. by exists e'.
Qed.

Lemma resolve_elem (entries : list string) (x : string) :
  x ∈ resolved_ips (resolve_domains dns_resolve entries dflt)
  <-> exists e, e ∈ entries /\ x ∈ adds_of dns_resolve dflt e.
Proof.
  unfold resolve_domains. rewrite resolve_fold_elem. simpl.
  rewrite elem_of_empty. tauto.
Qed.

End ResolverFacts.

(** X12. A formatted address is in the set [resolve_domains] returns
    exactly when some entry of the list has a domain the resolver answers
    for, and the address is one of the answers followed by that entry's
    suffix: its own override, or the default when it has none. *)
Theorem resolved_ips_elem (dns_resolve : string -> option (list string))
    (dflt : string) (entries : list string) (x : string) :
  x ∈ resolved_ips (resolve_domains dns_resolve entries dflt)
  <-> exists e answers answer,
        e ∈ entries
        /\ dns_resolve (entry_domain e) = Some answers
        /\ answer ∈ answers
        /\ x = answer +:+ entry_ip_class dflt e.
Proof.
  rewrite resolve_elem. unfold adds_of. split.
  - intros (e & He & Hx). apply list_elem_of_fmap in Hx as (a & -> & Ha).
    destruct (dns_resolve (entry_domain e)) as [answers|] eqn:E; simpl in Ha.
    + by exists e, answers, a.
    + by apply elem_of_nil in Ha.
  - intros (e & answers & a & He & E & Ha & ->).
    exists e. split; [done|]. rewrite E. simpl.
    apply list_elem_of_fmap. by exists a.
Qed.

Lemma every_entry_queried_aux (dns_resolve : string -> option (list string))
    (dflt : string) (entries : list string) :
  queried (resolve_domains dns_resolve entries dflt) = entry_domain <$> entries.
Proof. unfold resolve_domains. by rewrite resolve_fold_queried. Qed.

(** X13. The resolver is asked once for every entry, in the order of the
    list, about the entry's stripped text before its first comma: a failed
    lookup does not stop the loop, and a domain listed twice is asked about
    twice. *)
Theorem every_entry_queried (dns_resolve : string -> option (list string))
    (dflt : string) (entries : list string) :
  queried (resolve_domains dns_resolve entries dflt) = entry_domain <$> entries.
Proof. apply every_entry_queried_aux. Qed.

(** X14. The set does not depend on the order of the entries nor on how
    often an entry is listed: two lists with the same entries give the
    same set. *)
Theorem resolve_order_irrelevant (dns_resolve : string -> option (list string))
    (dflt : string) (entries entries' : list string) :
  (forall e, e ∈ entries <-> e ∈ entries') ->
  resolved_ips (resolve_domains dns_resolve entries dflt)
  = resolved_ips (resolve_domains dns_resolve entries' dflt).
Proof.
  intros H. apply set_eq. intros x. rewrite !resolve_elem.
  split; intros (e & He & Hx); exists e; (split; [by apply H | done]).
Qed.

Lemma resolve_order_irrelevant_witness :
  resolved_ips (resolve_domains dns1 ["example.com"; "nowhere.example,/8"] "/32")
  = resolved_ips
      (resolve_domains dns1
         ["nowhere.example,/8"; "example.com"; "example.com"] "/32").
Proof.
  apply resolve_order_irrelevant. intros e.
  rewrite !list_elem_of_In. simpl. tauto.
Defined.

(** X15. An entry whose lookup raises, or gives no answer, adds nothing:
    the set is the one the list without that entry gives. *)
Theorem failed_entry_adds_nothing (dns_resolve : string -> option (list string))
    (dflt : string) (before : list string) (e : string) (after : list string) :
  default [] (dns_resolve (entry_domain e)) = [] ->
  resolved_ips (resolve_domains dns_resolve (before ++ e :: after) dflt)
  = resolved_ips (resolve_domains dns_resolve (before ++ after) dflt).
Proof.
  intros He. apply set_eq. intros x. rewrite !resolve_elem.
  assert (forall y, y ∈ adds_of dns_resolve dflt e -> False) as Hno.
  { intros y. unfold adds_of. rewrite He. apply not_elem_of_nil. }
  split; intros (e' & Hin & Hx); exists e'; (split; [|done]).
  - apply elem_of_app in Hin as [Hin|Hin]; apply elem_of_app; [by left|].
    apply elem_of_cons in Hin as [->|Hin]; [by apply Hno in Hx | by right].
  - apply elem_of_app in Hin as [Hin|Hin]; apply elem_of_app; [by left|].
    right. by apply list_elem_of_further.
Qed.

Lemma failed_entry_adds_nothing_witness :
  resolved_ips
    (resolve_domains dns1 ["example.com,/24"; "nowhere.example"; "example.com"] "/32")
  = resolved_ips (resolve_domains dns1 ["example.com,/24"; "example.com"] "/32").
Proof.
  apply (failed_entry_adds_nothing dns1 "/32" ["example.com,/24"]
           "nowhere.example" ["example.com"]).
  reflexivity.
Defined.

(** X16. An entry without a comma is a domain and nothing else: the
    resolver is asked about its stripped text, and every answer gets the
    default suffix. *)
Theorem entry_without_comma (dns_resolve : string -> option (list string))
    (dflt e : string) :
  comma_free e = true ->
  entry_domain e = Py.strip e
  /\ entry_ip_class dflt e = dflt
  /\ resolve_domains dns_resolve [e] dflt
     = Resolution [Py.strip e]
         (accumulate ((fun answer => answer +:+ dflt)
                        <$> default [] (dns_resolve (Py.strip e)))).
Proof.
  intros He.
  assert (entry_domain e = Py.strip e) as E1
    by (unfold entry_domain; by rewrite split_comma_free).
  assert (entry_ip_class dflt e = dflt) as E2
    by (unfold entry_ip_class; by rewrite split_comma_free).
  repeat split; [done | done |].
  unfold resolve_domains. simpl. unfold resolve_step. rewrite E1, E2.
  destruct (dns_resolve (Py.strip e)) as [answers|]; simpl; [|done].
  by rewrite fold_add_fmap.
Qed.

Lemma entry_without_comma_witness :
  resolve_domains dns1 ["  example.com "] "/16"
  = Resolution ["example.com"] {[ "93.184.216.34/16" ]}.
Proof.
  destruct (entry_without_comma dns1 "/16" "  example.com ") as (_ & _ & H);
    [reflexivity|].
  etrans; [exact H|]. vm_compute. reflexivity.
Defined.

(** ** The whole run *)

Lemma main_unfold (dns_resolve : string -> option (list string)) (d : disk)
    (domains ip_class : string) (overwrite : bool) :
  main dns_resolve d domains ip_class overwrite
  = (c ← normalize_ip_class ip_class;
     entries ← main_entries d domains;
     let r := resolve_domains dns_resolve entries c in
     if bool_decide (resolved_ips r = ∅) then Exit1
     else text ← update_config (template_lines d) (resolved_ips r) overwrite;
          mret (queried r, text)).
Proof. reflexivity. Qed.

(** X17. Without a single resolved address nothing is written: when every
    entry's lookup raises or gives no answer, the run exits, whatever the
    class, the template and the mode. *)
Theorem main_needs_addresses (dns_resolve : string -> option (list string))
    (d : disk) (domains ip_class : string) (overwrite : bool)
    (entries : list string) :
  main_entries d domains = Done entries ->
  (forall e, e ∈ entries -> default [] (dns_resolve (entry_domain e)) = []) ->
  main dns_resolve d domains ip_class overwrite = Exit1.
Proof.
  intros He Hnone. rewrite main_unfold, He.
  destruct (normalize_ip_class ip_class) as [|c]; [done|].
  cbn [mbind outcome_bind].
  rewrite bool_decide_eq_true_2; [done|].
  apply set_eq. intros x. rewrite resolve_elem, elem_of_empty.
  split; [|done]. intros (e & Hin & Hx).
  unfold adds_of in Hx. rewrite (Hnone e Hin) in Hx.
  by apply elem_of_nil in Hx.
Qed.

Lemma main_needs_addresses_witness :
  main dns1
    (Disk (Some template1)
       (Some (Some ["nowhere.example" +:+ LF; "# example.com" +:+ LF])))
    "domains.txt" "24" true
  = Exit1.
Proof.
  apply (main_needs_addresses _ _ _ _ _ ["nowhere.example"]).
  - reflexivity.
  - intros e ->%list_elem_of_singleton. reflexivity.
Defined.

(** X18. When the run succeeds: the class was accepted, the entries and
    the template were read, the resolver was asked about every entry in
    order, the set of formatted addresses is not empty, and the text
    written is the text the patcher started from with the one line for
    that set spliced in. *)
Theorem main_output (dns_resolve : string -> option (list string))
    (d : disk) (domains ip_class : string) (overwrite : bool)
    (asked : list string) (text : string) :
  main dns_resolve d domains ip_class overwrite = Done (asked, text) ->
  exists c entries lines before after,
    normalize_ip_class ip_class = Done c
    /\ main_entries d domains = Done entries
    /\ template_lines d = Some lines
    /\ asked = entry_domain <$> entries
    /\ resolved_ips (resolve_domains dns_resolve entries c) <> ∅
    /\ Py.join "" (if overwrite then kept lines else lines) = before +:+ after
    /\ text
       = before
         +:+ allowed_ips_line (resolved_ips (resolve_domains dns_resolve entries c))
         +:+ after.
Proof.
  rewrite main_unfold.
  destruct (normalize_ip_class ip_class) as [|c]; [done|].
  destruct (main_entries d domains) as [|entries]; [done|].
  cbn [mbind outcome_bind].
  case_bool_decide as Hempty; [done|].
  destruct (template_lines d) as [lines|] eqn:Ht; [|done].
  destruct (update_config (Some lines) _ overwrite) as [|text'] eqn:Hu; [done|].
  cbn [mbind outcome_bind mret outcome_ret]. intros [= <- <-].
  apply update_config_text in Hu as (before & after & H1 & H2).
  exists c, entries, lines, before, after.
  repeat split; try done. by rewrite every_entry_queried_aux.
Qed.

Lemma main_output_witness :
  exists c entries lines before after,
    normalize_ip_class "c" = Done c
    /\ main_entries (Disk (Some template1) None) "example.com" = Done entries
    /\ template_lines (Disk (Some template1) None) = Some lines
    /\ ["example.com"] = entry_domain <$> entries
    /\ resolved_ips (resolve_domains dns1 entries c) <> ∅
    /\ Py.join "" (if false then kept lines else lines) = before +:+ after
    /\ Py.join "" (template1 ++ ["AllowedIPs = 93.184.216.34/24" +:+ LF])
       = before +:+ allowed_ips_line (resolved_ips (resolve_domains dns1 entries c))
         +:+ after.
Proof.
  apply (main_output dns1 (Disk (Some template1) None) "example.com" "c" false).
  vm_compute. reflexivity.
Defined.



(** ** Overwrite after append *)

Lemma overwrite_with_anchor (lines : list string) (allowed_ips : gset string) :
  ~ none is_allowed_ips lines ->
  exists out,
    update_config_lines lines allowed_ips true = Done out
    /\ allowed_ips_lines out = [allowed_ips_line allowed_ips].
Proof.
  intros Hsome.
  destruct (first_split is_allowed_ips lines)
    as [Hnone | (pre & a & post & -> & Hpre & Ha)]; [done|].
  eexists. split; [by apply overwrite_at_first|].
  apply one_allowed_ips_line;
    [done | apply allowed_ips_line_is_allowed_ips | apply none_kept].
Qed.


(** ** Reading back what was written *)

Lemma no_breaks_app (a b : string) :
  no_breaks (a +:+ b) = no_breaks a && no_breaks b.
Proof.
  induction a as [|c a IH]; [done|].
  rewrite append_cons. simpl. rewrite IH. by rewrite !andb_assoc.
Qed.

Lemma is_line_append_LF (b : string) : is_line (b +:+ LF) = no_breaks b.
Proof.
  induction b as [|c b IH]; [done|].
  rewrite append_cons. simpl. rewrite IH.
  destruct (Ascii.eqb c "010") eqn:E; simpl; [|done].
  apply bool_decide_eq_false. by destruct b.
Qed.

Lemma is_line_last (x : string) : is_line x = true -> is_last_line x = true.
Proof. unfold is_last_line. by intros ->. Qed.

Lemma no_breaks_concat (sep : string) (l : list string) :
  no_breaks sep = true -> Forall (fun x => no_breaks x = true) l ->
  no_breaks (String.concat sep l) = true.
Proof.
  intros Hsep. induction 1 as [|x l Hx Hl IH]; [done|].
  destruct l as [|y l]; [done|].
  change (String.concat sep (x :: y :: l))
    with (x +:+ sep +:+ String.concat sep (y :: l)).
  by rewrite !no_breaks_app, Hx, Hsep, IH.
Qed.

Lemma allowed_ips_line_is_line (allowed_ips : gset string) :
  line_free allowed_ips -> is_line (allowed_ips_line allowed_ips) = true.
Proof.
  intros Hfree. unfold allowed_ips_line.
  rewrite <- append_assoc_str, is_line_append_LF, no_breaks_app.
  apply andb_true_iff. split; [done|].
  apply no_breaks_concat; [done|].
  apply Forall_forall. intros x Hx. by apply Hfree, sorted_elem.
Qed.

Lemma readlines_line (x s : string) :
  is_line x = true -> Py.readlines (x +:+ s) = x :: Py.readlines s.
Proof.
  induction x as [|c x IH]; [done|].
  rewrite append_cons. simpl.
  destruct (Ascii.eqb c "010") eqn:E.
  - by intros ->%bool_decide_eq_true.
  - intros [_ Hx]%andb_true_iff. by rewrite IH.
Qed.

Lemma readlines_unterminated (x : string) :
  x <> "" -> no_breaks x = true -> Py.readlines x = [x].
Proof.
  induction x as [|c x IH]; [done|]. intros _. simpl.
  intros [[Hc _]%andb_true_iff Hx]%andb_true_iff.
  apply negb_true_iff in Hc. rewrite Hc.
  destruct x as [|c' x]; [done|]. by rewrite IH.
Qed.

Lemma readlines_last_line (x : string) :
  is_last_line x = true -> Py.readlines x = [x].
Proof.
  unfold is_last_line. intros [H|[H1 H2]%andb_true_iff]%orb_true_iff.
  - rewrite <- (append_empty_r x) at 1. by rewrite readlines_line.
  - apply readlines_unterminated; [|done].
    apply negb_true_iff in H1. by apply bool_decide_eq_false in H1.
Qed.

Lemma wf_lines_cons (x : string) (l : list string) :
  wf_lines (x :: l) = true ->
  is_last_line x = true /\ wf_lines l = true /\ (l <> [] -> is_line x = true).
Proof.
  simpl. destruct l as [|y l].
  - by intros ->.
  - intros [Hx Hl]%andb_true_iff. by rewrite is_line_last.
Qed.

Lemma wf_lines_line_cons (x : string) (l : list string) :
  is_line x = true -> wf_lines l = true -> wf_lines (x :: l) = true.
Proof.
  intros Hx Hl. simpl. destruct l; [by apply is_line_last|].
  by rewrite Hx.
Qed.

Lemma wf_lines_app (l1 l2 : list string) :
  Forall (fun x => is_line x = true) l1 -> wf_lines l2 = true ->
  wf_lines (l1 ++ l2) = true.
Proof.
  intros H1 H2. induction H1 as [|x l1 Hx _ IH]; [done|].
  by apply wf_lines_line_cons.
Qed.

Lemma wf_lines_app_inv (l1 l2 : list string) :
  wf_lines (l1 ++ l2) = true -> l2 <> [] ->
  Forall (fun x => is_line x = true) l1 /\ wf_lines l2 = true.
Proof.
  intros H Hne. induction l1 as [|x l1 IH]; [by split|].
  apply wf_lines_cons in H as (_ & Hl & Hx).
  destruct (IH Hl) as [H1 H2]. split; [|done].
  constructor; [|done]. apply Hx. by destruct l1, l2.
Qed.

Lemma wf_lines_kept (l : list string) :
  wf_lines l = true -> wf_lines (kept l) = true.
Proof.
  induction l as [|x l IH]; [done|].
  intros (Hlast & Hl & Hx)%wf_lines_cons.
  destruct (is_allowed_ips x) eqn:E.
  - rewrite filter_cons_False by congruence. auto.
  - rewrite filter_cons_True by done.
    specialize (IH Hl).
    destruct (kept l) as [|y k] eqn:Ek; [exact Hlast|].
    apply wf_lines_line_cons; [|exact IH].
    apply Hx. intros ->. discriminate Ek.
Qed.

Lemma readlines_join (l : list string) :
  wf_lines l = true -> Py.readlines (Py.join "" l) = l.
Proof.
  induction l as [|x l IH]; [done|].
  intros (Hlast & Hl & Hx)%wf_lines_cons.
  destruct l as [|y l]; [by apply readlines_last_line|].
  rewrite join_empty_cons, readlines_line by (by apply Hx).
  by rewrite IH.
Qed.

Lemma universal_line (x s : string) :
  is_line x = true ->
  Py.universal_newlines (x +:+ s) = x +:+ Py.universal_newlines s.
Proof.
  induction x as [|c x IH]; [done|].
  rewrite !append_cons. simpl.
  destruct (Ascii.eqb c "010") eqn:E.
  - intros ->%bool_decide_eq_true.
    apply Ascii.eqb_eq in E as ->. reflexivity.
  - intros [Hc Hx]%andb_true_iff. apply negb_true_iff in Hc.
    by rewrite Hc, IH.
Qed.

Lemma universal_no_breaks (x : string) :
  no_breaks x = true -> Py.universal_newlines x = x.
Proof.
  induction x as [|c x IH]; [done|]. simpl.
  intros [[_ Hc]%andb_true_iff Hx]%andb_true_iff.
  apply negb_true_iff in Hc. by rewrite Hc, IH.
Qed.

Lemma universal_last_line (x : string) :
  is_last_line x = true -> Py.universal_newlines x = x.
Proof.
  unfold is_last_line. intros [H|[_ H]%andb_true_iff]%orb_true_iff.
  - rewrite <- (append_empty_r x) at 1.
    by rewrite universal_line, append_empty_r.
  - by apply universal_no_breaks.
Qed.

Lemma universal_join (l : list string) :
  wf_lines l = true -> Py.universal_newlines (Py.join "" l) = Py.join "" l.
Proof.
  induction l as [|x l IH]; [done|].
  intros (Hlast & Hl & Hx)%wf_lines_cons.
  destruct l as [|y l]; [by apply universal_last_line|].
  rewrite (join_empty_cons x), universal_line by (by apply Hx).
  by rewrite IH.
Qed.

(** A file written from well-formed lines reads back as those lines. *)
Lemma file_lines_join (l : list string) :
  wf_lines l = true -> file_lines (Py.join "" l) = l.
Proof.
  intros H. unfold file_lines. by rewrite universal_join, readlines_join.
Qed.

Lemma universal_unfold (c : ascii) (s : string) :
  Py.universal_newlines (String c s)
  = if Ascii.eqb c "013" then
      String "010"
        match s with
        | String c' s'' =>
            if Ascii.eqb c' "010" then Py.universal_newlines s''
            else Py.universal_newlines s
        | EmptyString => EmptyString
        end
    else String c (Py.universal_newlines s).
Proof. reflexivity. Qed.

Lemma no_cr_cons (c : ascii) (s : string) :
  no_cr (String c s) = negb (Ascii.eqb c "013") && no_cr s.
Proof. reflexivity. Qed.

Lemma universal_no_cr_upto (n : nat) (s : string) :
  String.length s <= n -> no_cr (Py.universal_newlines s) = true.
Proof.
  revert s. induction n as [|n IH]; intros [|c s] Hlen;
    [done | simpl in Hlen; lia | done |].
  simpl in Hlen. rewrite universal_unfold.
  destruct (Ascii.eqb c "013") eqn:E.
  - rewrite no_cr_cons. simpl negb. rewrite andb_true_l.
    destruct s as [|c' s]; [done|]. simpl in Hlen.
    destruct (Ascii.eqb c' "010"); apply IH; simpl; lia.
  - rewrite no_cr_cons, E. simpl negb. rewrite andb_true_l. apply IH. lia.
Qed.

Lemma universal_no_cr (s : string) : no_cr (Py.universal_newlines s) = true.
Proof. by apply (universal_no_cr_upto (String.length s)). Qed.

Lemma is_line_cons (c : ascii) (x : string) :
  Ascii.eqb c "010" = false -> Ascii.eqb c "013" = false ->
  is_line (String c x) = is_line x
  /\ is_last_line (String c x) = is_last_line x || bool_decide (x = "").
Proof.
  intros H1 H2. unfold is_last_line. simpl. rewrite H1, H2. simpl.
  split; [done|]. destruct x as [|c' x]; [done|].
  rewrite (bool_decide_eq_false_2 (String c' x = "")) by done.
  simpl. by rewrite !orb_false_r.
Qed.

Lemma readlines_unfold (c : ascii) (s : string) :
  Py.readlines (String c s)
  = if Ascii.eqb c "010" then String c EmptyString :: Py.readlines s
    else match Py.readlines s with
         | [] => [String c EmptyString]
         | line :: lines => String c line :: lines
         end.
Proof. reflexivity. Qed.

Lemma readlines_wf (s : string) :
  no_cr s = true -> wf_lines (Py.readlines s) = true.
Proof.
  induction s as [|c s IH]; [done|]. rewrite no_cr_cons.
  intros [Hc Hs]%andb_true_iff. apply negb_true_iff in Hc.
  specialize (IH Hs). rewrite readlines_unfold.
  destruct (Ascii.eqb c "010") eqn:E.
  - apply wf_lines_line_cons; [|done].
    apply Ascii.eqb_eq in E as ->. reflexivity.
  - destruct (is_line_cons c "" E Hc) as [_ Hlast0].
    destruct (Py.readlines s) as [|x l].
    { change (is_last_line (String c "") = true). by rewrite Hlast0. }
    destruct (is_line_cons c x E Hc) as [Hline Hlast].
    apply wf_lines_cons in IH as (Hx & Hl & Hne).
    destruct l as [|y l].
    + change (is_last_line (String c x) = true). by rewrite Hlast, Hx.
    + apply wf_lines_line_cons; [|done]. rewrite Hline. by apply Hne.
Qed.

(** What is read from a file is always well formed. *)
Lemma file_lines_wf (content : string) : wf_lines (file_lines content) = true.
Proof. apply readlines_wf, universal_no_cr. Qed.

Lemma wf_lines_all (l : list string) :
  Forall (fun x => is_line x = true) l -> wf_lines l = true.
Proof.
  intros H. rewrite <- (app_nil_r l). by apply wf_lines_app.
Qed.

Lemma update_config_done (lines : list string) (allowed_ips : gset string)
    (overwrite : bool) (out : list string) :
  update_config_lines lines allowed_ips overwrite = Done out ->
  update_config (Some lines) allowed_ips overwrite = Done (Py.join "" out).
Proof. unfold update_config. by intros ->. Qed.

(** A sequence with the new line as its only AllowedIPs line is a fixed
    point of overwrite mode. *)
Lemma overwrite_fixed_point (pre post : list string) (allowed_ips : gset string) :
  none is_allowed_ips pre -> none is_allowed_ips post ->
  update_config_lines (pre ++ allowed_ips_line allowed_ips :: post)
    allowed_ips true
  = Done (pre ++ allowed_ips_line allowed_ips :: post)
  /\ allowed_ips_lines (pre ++ allowed_ips_line allowed_ips :: post)
     = [allowed_ips_line allowed_ips].
Proof.
  intros Hpre Hpost.
  pose proof (allowed_ips_line_is_allowed_ips allowed_ips) as Hnew.
  split.
  - rewrite overwrite_at_first by done. by rewrite kept_none.
  - by apply one_allowed_ips_line.
Qed.

(** The first run of overwrite mode on a template read from a file, when
    it has an AllowedIPs line or its first [Peer] line is terminated:
    the output is well formed and a fixed point. *)
Lemma overwrite_first_run (lines : list string) (allowed_ips : gset string) :
  wf_lines lines = true -> line_free allowed_ips ->
  (~ none is_allowed_ips lines
   \/ exists pre p post,
        lines = pre ++ p :: post
        /\ none is_peer pre /\ is_peer p = true /\ is_line p = true) ->
  exists out,
    update_config_lines lines allowed_ips true = Done out
    /\ wf_lines out = true
    /\ update_config_lines out allowed_ips true = Done out
    /\ allowed_ips_lines out = [allowed_ips_line allowed_ips].
Proof.
  intros Hwf Hfree Hanchor.
  pose proof (allowed_ips_line_is_line allowed_ips Hfree) as Hline.
  destruct (first_split is_allowed_ips lines)
    as [Hnone | (pre & a & post & -> & Hpre & Ha)].
  - destruct Hanchor as [H | (pre & p & post & -> & Hpre & Hp & Hpl)]; [done|].
    apply wf_lines_app_inv in Hwf as [Hwpre Hwpost]; [|done].
    apply wf_lines_cons in Hwpost as (_ & Hwpost & _).
    apply Forall_app in Hnone as Hcut. destruct Hcut as [Hn1 Hn2].
    apply Forall_cons in Hn2 as [Hn2 Hn3].
    assert (none is_allowed_ips (pre ++ [p])) as Hpp
      by (apply Forall_app; split; [done | by repeat constructor]).
    exists ((pre ++ [p]) ++ allowed_ips_line allowed_ips :: post).
    split; [by apply overwrite_after_peer|].
    split; [|by apply overwrite_fixed_point].
    apply wf_lines_app; [|by apply wf_lines_line_cons].
    apply Forall_app. split; [done | by repeat constructor].
  - apply wf_lines_app_inv in Hwf as [Hwpre Hwpost]; [|done].
    apply wf_lines_cons in Hwpost as (_ & Hwpost & _).
    exists (pre ++ allowed_ips_line allowed_ips :: kept post).
    split; [by apply overwrite_at_first|].
    split; [|apply overwrite_fixed_point; [done | apply none_kept]].
    apply wf_lines_app; [done|].
    apply wf_lines_line_cons; [done | by apply wf_lines_kept].
Qed.

(** ** Patching again, through the file *)

(** C4, as the code has it. For a template file that has an AllowedIPs
    line, or a [Peer] line of which the first is terminated by a newline,
    and a set whose strings have no line break: overwrite mode yields an
    output; run again on the file it wrote, with the same set, it yields
    the same text; and that text has exactly one AllowedIPs line, the new
    one. *)
Theorem overwrite_idempotent (content : string) (allowed_ips : gset string) :
  line_free allowed_ips ->
  (~ none is_allowed_ips (file_lines content)
   \/ exists pre p post,
        file_lines content = pre ++ p :: post
        /\ none is_peer pre /\ is_peer p = true /\ is_line p = true) ->
  exists text1,
    update_config_file content allowed_ips true = Done text1
    /\ update_config_file text1 allowed_ips true = Done text1
    /\ allowed_ips_lines (file_lines text1) = [allowed_ips_line allowed_ips].
Proof.
  intros Hfree Hanchor.
  destruct (overwrite_first_run (file_lines content) allowed_ips)
    as (out & H1 & Hwf & H2 & H3); [apply file_lines_wf | done | done |].
  exists (Py.join "" out). unfold update_config_file.
  rewrite file_lines_join by done.
  repeat split; [by apply update_config_done | by apply update_config_done | done].
Qed.

Lemma overwrite_idempotent_witness :
  exists text1,
    update_config_file
      ("[Peer]" +:+ LF +:+ "AllowedIPs = 9.9.9.9/32" +:+ LF +:+ "PublicKey = X")
      {[ "1.1.1.1/32" ]} true = Done text1
    /\ update_config_file text1 {[ "1.1.1.1/32" ]} true = Done text1
    /\ allowed_ips_lines (file_lines text1)
       = [allowed_ips_line {[ "1.1.1.1/32" ]}].
Proof.
  apply overwrite_idempotent.
  - intros x ->%elem_of_singleton. reflexivity.
  - left. intros H. apply Forall_cons in H as [_ H].
    apply Forall_cons in H as [H _]. vm_compute in H. discriminate.
Defined.

(** C4 as stated fails: a template with neither an AllowedIPs line nor a
    [Peer] line yields no output at all, and for a template that ends in a
    [Peer] line without newline the first run glues the new key to that
    line, after which the second run finds no anchor and exits. *)
Lemma overwrite_idempotent_counterexample :
  update_config_file ("[Interface]" +:+ LF) {[ "1.1.1.1/32" ]} true = Exit1
  /\ update_config_file "[Peer]" {[ "1.1.1.1/32" ]} true
     = Done ("[Peer]AllowedIPs = 1.1.1.1/32" +:+ LF)
  /\ update_config_file ("[Peer]AllowedIPs = 1.1.1.1/32" +:+ LF)
       {[ "1.1.1.1/32" ]} true
     = Exit1.
Proof. vm_compute. repeat split. Qed.

(** C5 at a template without final newline: the first append run glues
    its key to the last line, so after two runs the file has one
    AllowedIPs line, not two, and the line it was glued to is no longer
    what it was. When the file is the [Peer] line alone, the second run
    finds no [Peer] line and exits. *)
Theorem append_glues_unterminated :
  append_runs ("[Peer]" +:+ LF +:+ "PublicKey = X")
    [ {[ "1.1.1.1/32" ]}; {[ "2.2.2.2/32" ]} ]
  = Done ("[Peer]" +:+ LF +:+ "PublicKey = XAllowedIPs = 1.1.1.1/32" +:+ LF
          +:+ "AllowedIPs = 2.2.2.2/32" +:+ LF)
  /\ allowed_ips_lines
       (file_lines
          ("[Peer]" +:+ LF +:+ "PublicKey = XAllowedIPs = 1.1.1.1/32" +:+ LF
           +:+ "AllowedIPs = 2.2.2.2/32" +:+ LF))
     = [ "AllowedIPs = 2.2.2.2/32" +:+ LF ]
  /\ append_runs "[Peer]" [ {[ "1.1.1.1/32" ]}; {[ "2.2.2.2/32" ]} ] = Exit1.
Proof. vm_compute. repeat split. Qed.

Lemma append_succeeds (lines : list string) (allowed_ips : gset string) :
  ~ none is_peer lines ->
  exists out, update_config_lines lines allowed_ips false = Done out.
Proof.
  intros Hp. unfold update_config_lines.
  destruct (find_from is_peer 0 lines) eqn:E; [by eexists|].
  by apply find_from_None_iff in E.
Qed.

Lemma is_line_py_insert (i : nat) (x : string) (l : list string) :
  is_line x = true -> Forall (fun y => is_line y = true) l ->
  Forall (fun y => is_line y = true) (Py.insert i x l).
Proof.
  intros Hx Hl. unfold Py.insert. apply Forall_app. split.
  - by apply Forall_take.
  - constructor; [done | by apply Forall_drop].
Qed.

Lemma is_line_kept (l : list string) :
  Forall (fun y => is_line y = true) l ->
  Forall (fun y => is_line y = true) (kept l).
Proof.
  intros Hl. apply Forall_forall. intros y [_ Hy]%list_elem_of_filter.
  by apply (proj1 (Forall_forall _ _) Hl).
Qed.

(** X20. Overwrite mode undoes what append mode piled up. For a template
    file in which every line is terminated by a newline and which has a
    [Peer] line, and sets whose strings have no line break: append mode
    yields a file on which overwrite mode always succeeds, whatever the
    new set, and what overwrite mode writes has exactly one AllowedIPs
    line, the one for the new set, among the other lines of the first
    template, which are all there, unchanged and in order. *)
Theorem overwrite_after_append (content : string)
    (appended replaced : gset string) :
  line_free appended -> line_free replaced ->
  Forall (fun y => is_line y = true) (file_lines content) ->
  ~ none is_peer (file_lines content) ->
  exists text1 text2,
    update_config_file content appended false = Done text1
    /\ update_config_file text1 replaced true = Done text2
    /\ allowed_ips_lines (file_lines text2) = [allowed_ips_line replaced]
    /\ kept (file_lines text2) = kept (file_lines content).
Proof.
  intros Hfa Hfr Hlines Hpeer.
  pose proof (allowed_ips_line_is_line appended Hfa) as Hla.
  pose proof (allowed_ips_line_is_line replaced Hfr) as Hlr.
  destruct (append_succeeds (file_lines content) appended Hpeer) as [out H1].
  apply patched_shape in H1 as Hs. destruct Hs as [i Hout].
  assert (Forall (fun y => is_line y = true) out) as Hwo
    by (subst out; by apply is_line_py_insert).
  destruct (overwrite_with_anchor out replaced) as (out2 & H2 & H3).
  { subst out. intros Hnone. unfold Py.insert in Hnone.
    apply Forall_app in Hnone as [_ Hnone].
    apply Forall_cons in Hnone as [Hnone _].
    by rewrite allowed_ips_line_is_allowed_ips in Hnone. }
  apply patched_shape in H2 as Hs. destruct Hs as [j Hout2].
  assert (Forall (fun y => is_line y = true) out2) as Hwo2
    by (subst out2; apply is_line_py_insert; [done | by apply is_line_kept]).
  exists (Py.join "" out), (Py.join "" out2). unfold update_config_file.
  rewrite !file_lines_join by (by apply wf_lines_all).
  repeat split; [by apply update_config_done | by apply update_config_done
                | done |].
  rewrite Hout2, kept_py_insert by apply allowed_ips_line_is_allowed_ips.
  rewrite kept_none by apply none_kept.
  by rewrite Hout, kept_py_insert by apply allowed_ips_line_is_allowed_ips.
Qed.

Lemma overwrite_after_append_witness :
  exists text1 text2,
    update_config_file (Py.join "" template1) {[ "1.2.3.4/32" ]} false
    = Done text1
    /\ update_config_file text1 {[ "9.9.9.9/32" ]} true = Done text2
    /\ allowed_ips_lines (file_lines text2)
       = [allowed_ips_line {[ "9.9.9.9/32" ]}]
    /\ kept (file_lines text2) = kept (file_lines (Py.join "" template1)).
Proof.
  apply overwrite_after_append.
  - intros x ->%elem_of_singleton. reflexivity.
  - intros x ->%elem_of_singleton. reflexivity.
  - by repeat constructor.
  - intros H. do 2 apply Forall_cons in H as [_ H].
    apply Forall_cons in H as [H _]. vm_compute in H. discriminate.
Defined.

Lemma append_runs_lines (pre : list string) (p : string) (rest : list string)
    (sets : list (gset string)) :
  none is_peer pre -> is_peer p = true ->
  (forall h, head rest = Some h -> is_section h = true) ->
  wf_lines rest = true ->
  (forall s, s ∈ sets -> line_free s) ->
  forall (body : list string) (content : string),
    file_lines content = pre ++ p :: body ++ rest ->
    Forall (fun y => is_line y = true) (pre ++ p :: body) ->
    none is_section body ->
    exists text,
      append_runs content sets = Done text
      /\ file_lines text
         = pre ++ p :: (body ++ (allowed_ips_line <$> sets)) ++ rest.
Proof.
  intros Hpre Hp Hrest Hwrest.
  induction sets as [|s sets IH]; intros Hfree body content Hlines Hterm Hbody.
  - exists content. split; [done|]. by rewrite app_nil_r.
  - assert (line_free s) as Hs by apply Hfree, list_elem_of_here.
    pose proof (allowed_ips_line_is_line s Hs) as Hline.
    set (out := pre ++ p :: (body ++ [allowed_ips_line s]) ++ rest).
    assert (update_config_file content s false = Done (Py.join "" out)) as Hrun.
    { unfold update_config_file. rewrite Hlines.
      apply update_config_done. rewrite append_at_boundary by done.
      unfold out. by rewrite <- (app_assoc body), <- cons_middle. }
    assert (Forall (fun y => is_line y = true)
              (pre ++ p :: body ++ [allowed_ips_line s])) as Hterm'.
    { rewrite (app_comm_cons body _ p), app_assoc.
      apply Forall_app. split; [done | by repeat constructor]. }
    assert (wf_lines out = true) as Hwf.
    { unfold out. rewrite (app_comm_cons _ rest p), app_assoc.
      by apply wf_lines_app. }
    destruct (IH (fun s' H => Hfree s' (list_elem_of_further _ _ _ H))
                (body ++ [allowed_ips_line s]) (Py.join "" out))
      as (text & Ht & Hl).
    + by apply file_lines_join.
    + done.
    + apply Forall_app. split; [done|].
      repeat constructor. apply allowed_ips_line_not_section.
    + exists text. cbn [append_runs]. rewrite Hrun.
      split; [done|]. rewrite Hl. simpl. by rewrite <- (app_assoc body).
Qed.

(** X21. Append mode accumulates through the file. For a template file cut
    at its first [Peer] line [p] into the section body and the rest, which
    is empty or starts with the next section header, provided that the
    lines of the section are terminated by a newline when nothing follows
    it, and for sets whose strings have no line break: running append mode
    once for each set, every run on the file the run before wrote, gives a
    file that reads as the template's lines with one new line per run, in
    the order of the runs, between the section body and the rest. *)
Theorem append_runs_accumulate (content : string) (sets : list (gset string))
    (pre : list string) (p : string) (body rest : list string) :
  (forall s, s ∈ sets -> line_free s) ->
  file_lines content = pre ++ p :: body ++ rest ->
  none is_peer pre -> is_peer p = true ->
  none is_section body ->
  (forall h, head rest = Some h -> is_section h = true) ->
  (rest = [] -> Forall (fun y => is_line y = true) (p :: body)) ->
  exists text,
    append_runs content sets = Done text
    /\ file_lines text
       = pre ++ p :: (body ++ (allowed_ips_line <$> sets)) ++ rest
    /\ none is_section (body ++ (allowed_ips_line <$> sets)).
Proof.
  intros Hfree Hlines Hpre Hp Hbody Hrest Hend.
  pose proof (file_lines_wf content) as Hwf. rewrite Hlines in Hwf.
  assert (Forall (fun y => is_line y = true) (pre ++ p :: body)
          /\ wf_lines rest = true) as [Hterm Hwrest].
  { destruct rest as [|h rest].
    - rewrite app_nil_r in Hwf. split; [|done].
      apply wf_lines_app_inv in Hwf as [Hwpre _]; [|done].
      apply Forall_app. split; [done | by apply Hend].
    - rewrite (app_comm_cons body _ p), app_assoc in Hwf.
      by apply wf_lines_app_inv in Hwf. }
  destruct (append_runs_lines pre p rest sets Hpre Hp Hrest Hwrest Hfree
              body content Hlines Hterm Hbody) as (text & H1 & H2).
  exists text. repeat split; [done | done |].
  apply Forall_app. split; [done|].
  apply Forall_fmap, Forall_forall. intros s _.
  apply allowed_ips_line_not_section.
Qed.

Lemma append_runs_accumulate_witness :
  exists text,
    append_runs (Py.join "" template1)
      [ {[ "1.1.1.1/32" ]}; {[ "2.2.2.2/32" ]}; {[ "1.1.1.1/32" ]} ]
    = Done text
    /\ file_lines text
       = [ "[Interface]" +:+ LF; "Address = 10.0.0.1" +:+ LF ]
         ++ ("[Peer]" +:+ LF)
            :: ([ "PublicKey = X" +:+ LF ]
                ++ (allowed_ips_line
                      <$> [ {[ "1.1.1.1/32" ]}; {[ "2.2.2.2/32" ]};
                            {[ "1.1.1.1/32" ]} ])) ++ []
    /\ none is_section
         ([ "PublicKey = X" +:+ LF ]
          ++ (allowed_ips_line
                <$> [ {[ "1.1.1.1/32" ]}; {[ "2.2.2.2/32" ]};
                      {[ "1.1.1.1/32" ]} ])).
Proof.
  apply append_runs_accumulate.
  - intros s Hs x Hx.
    assert (x = "1.1.1.1/32" \/ x = "2.2.2.2/32") as [-> | ->]; [|done..].
    rewrite !elem_of_cons, elem_of_nil in Hs.
    destruct Hs as [-> | [-> | [-> | []]]];
      apply elem_of_singleton in Hx; auto.
  - reflexivity.
  - by repeat constructor.
  - reflexivity.
  - by repeat constructor.
  - intros h [=].
  - intros _. by repeat constructor.
Defined.
